(** * StatApp: a shallow embedding of the upload / explore / regress script

    The program is a Streamlit script ([app.py]) that calls four sections in
    order ([sections/upload.py], [sections/univariate.py],
    [sections/bivariate.py], [sections/regression.py]) on top of two helper
    modules ([utils/data_io.py], [utils/plotting.py]).

    Every numerical routine is a call into pandas, scipy, statsmodels,
    seaborn or matplotlib.  Those calls are kept abstract: they are the
    fields of the class [Libraries] below, and every statement proved about
    the script holds for all instances of that class.  What is embedded
    concretely is the code of the repository itself: the control flow of each
    function, the data it derives from the DataFrame (column selection,
    [dropna], [isna().sum()]), the widgets it reads, what it renders, where it
    stops the run and which exceptions escape it. *)

From Stdlib Require Import String Ascii List ZArith Lia Bool.
From Stdlib.Strings Require Import Byte.
From stdpp Require Import base option list gmap strings pretty fin_maps.

Local Open Scope string_scope.
Local Open Scope list_scope.

(** ** Python exceptions *)

(** The exception classes the script can meet.  The last two derive from
    [BaseException] only, so [except Exception] does not catch them. *)
Inductive exn_class :=
| UnicodeDecodeError
| KeyError
| ValueError
| PatsyError
| ParserError
| EmptyDataError
| BadZipFile
| NameError
| KeyboardInterrupt
| SystemExit.

Record exn := Exn { exn_kind : exn_class; exn_str : string }.

(** [isinstance(e, Exception)] *)
Definition is_Exception (e : exn) : bool :=
  match exn_kind e with
  | KeyboardInterrupt | SystemExit => false
  | _ => true
  end.

(** [isinstance(e, UnicodeDecodeError)] *)
Definition is_UnicodeDecodeError (e : exn) : bool :=
  match exn_kind e with
  | UnicodeDecodeError => true
  | _ => false
  end.

(** ** Strings: the pieces of [str] the script uses *)

Definition lower_ascii (c : ascii) : ascii :=
  let n := nat_of_ascii c in
  if (65 <=? n)%nat && (n <=? 90)%nat then ascii_of_nat (n + 32) else c.

(** [s.lower()] on the bytes of [s]; bytes outside [A-Z] are kept. *)
Fixpoint lower (s : string) : string :=
  match s with
  | EmptyString => EmptyString
  | String c r => String (lower_ascii c) (lower r)
  end.

Fixpoint string_rev_onto (s acc : string) : string :=
  match s with
  | EmptyString => acc
  | String c r => string_rev_onto r (String c acc)
  end.

Definition string_rev (s : string) : string := string_rev_onto s EmptyString.

(** [s.endswith(suffix)] *)
Definition endswith (s suffix : string) : bool :=
  String.prefix (string_rev suffix) (string_rev s).

(** [sep.join(parts)] *)
Fixpoint join (sep : string) (parts : list string) : string :=
  match parts with
  | [] => EmptyString
  | [p] => p
  | p :: rest => p ++ sep ++ join sep rest
  end.

Definition newline : string := String (ascii_of_nat 10) EmptyString.

(** ** Outcomes of running a piece of the script *)

(** A call either returns, or reaches [st.stop()], or lets an exception
    escape. *)
Inductive outcome (A : Type) :=
| Ret (a : A)
| Stop
| Raise (e : exn).

Arguments Ret {A} a.
Arguments Stop {A}.
Arguments Raise {A} e.

Inductive encoding := Utf8 | Latin1.
Inductive engine := Openpyxl | Xlrd.

(** The object returned by [st.file_uploader]: a named in-memory stream.
    Its read pointer lives in the world (see below). *)
Record UploadedFile := { file_name : string; file_bytes : list byte }.

(** What the user has done to the widgets when the script runs.  [None]
    means the widget still holds its default. *)
Record Inputs := {
  in_uploaded : option UploadedFile;
  in_univariate : option (list string);
  in_y : option string;
  in_xs : option (list string);
  in_formula : option string;
  in_fit_clicked : bool
}.

(** [st.multiselect(options=..., default=...)]: the selection is always a
    sub-list of the options. *)
Definition multiselect (options default : list string)
    (choice : option (list string)) : list string :=
  match choice with
  | None => default
  | Some sel => filter (fun c => bool_decide (c ∈ options)) sel
  end.

(** [st.selectbox(options=..., index=0)] on a non-empty option list whose
    first element is [first]. *)
Definition selectbox (options : list string) (first : string)
    (choice : option string) : string :=
  match choice with
  | None => first
  | Some c => if bool_decide (c ∈ options) then c else first
  end.

(** [st.text_input(value=...)] *)
Definition text_input (value : string) (choice : option string) : string :=
  default value choice.

(** ** Series and DataFrames *)

(** A pandas column.  A numeric column (dtype [int64]/[float64]) holds
    numbers of type [F], an [object] column holds strings; [None] is a
    missing cell (NaN / None). *)
Inductive column (F : Type) :=
| NumCol (xs : list (option F))
| ObjCol (xs : list (option string)).

Arguments NumCol {F} xs.
Arguments ObjCol {F} xs.

(** A DataFrame: [shape0] rows and an ordered list of named columns.
    Column labels are unique in every frame pandas reads from a file (the
    readers rename duplicates), so [df[name]] is the first match. *)
Record DataFrame (F : Type) := Frame {
  shape0 : nat;
  columns : list (string * column F)
}.

Arguments Frame {F} shape0 columns.
Arguments shape0 {F} d.
Arguments columns {F} d.

Section Frames.
Context {F : Type}.

Definition col_len (c : column F) : nat :=
  match c with
  | NumCol xs => length xs
  | ObjCol xs => length xs
  end.

(** Rows are aligned by position: every column has [shape0] cells. *)
Definition frame_wf (d : DataFrame F) : Prop :=
  Forall (fun nc => col_len nc.2 = shape0 d) (columns d).

Definition is_none {A} (o : option A) : bool :=
  match o with None => true | Some _ => false end.

(** [s.isna()] *)
Definition isna (c : column F) : list bool :=
  match c with
  | NumCol xs => map is_none xs
  | ObjCol xs => map is_none xs
  end.

(** [s.notna()] *)
Definition notna (c : column F) : list bool := map negb (isna c).

(** [mask.sum()] on a boolean Series *)
Fixpoint sum_bool (mask : list bool) : nat :=
  match mask with
  | [] => 0
  | b :: r => (if b then 1 else 0) + sum_bool r
  end.

(** [l[mask]]: the entries whose mask bit is set *)
Fixpoint select {A} (mask : list bool) (l : list A) : list A :=
  match mask, l with
  | b :: m, x :: r => if b then x :: select m r else select m r
  | _, _ => []
  end.

Definition col_select (mask : list bool) (c : column F) : column F :=
  match c with
  | NumCol xs => NumCol (select mask xs)
  | ObjCol xs => ObjCol (select mask xs)
  end.

(** [s.dropna()]: a new Series without the missing cells *)
Definition series_dropna (c : column F) : column F := col_select (notna c) c.

(** [len(s)] *)
Definition series_len (c : column F) : nat := col_len c.

(** [df[name]]; [None] stands for the [KeyError] *)
Fixpoint getitem_cols (cols : list (string * column F)) (name : string)
    : option (column F) :=
  match cols with
  | [] => None
  | (n, c) :: r => if String.eqb n name then Some c else getitem_cols r name
  end.

Definition getitem (d : DataFrame F) (name : string) : option (column F) :=
  getitem_cols (columns d) name.

(** [df[[n1, n2, ...]]]: a new frame with the listed columns, in that
    order; [None] stands for the [KeyError] *)
Fixpoint getitems_cols (d : DataFrame F) (names : list string)
    : option (list (string * column F)) :=
  match names with
  | [] => Some []
  | n :: r =>
      match getitem d n, getitems_cols d r with
      | Some c, Some cs => Some ((n, c) :: cs)
      | _, _ => None
      end
  end.

Definition getitems (d : DataFrame F) (names : list string)
    : option (DataFrame F) :=
  match getitems_cols d names with
  | Some cs => Some (Frame (shape0 d) cs)
  | None => None
  end.

(** The rows with no missing cell in any column *)
Fixpoint complete_rows (n : nat) (cols : list (string * column F)) : list bool :=
  match cols with
  | [] => repeat true n
  | (_, c) :: r => zip_with andb (notna c) (complete_rows n r)
  end.

(** [df.dropna()]: a new frame keeping the complete rows *)
Definition frame_dropna (d : DataFrame F) : DataFrame F :=
  let keep := complete_rows (shape0 d) (columns d) in
  Frame (sum_bool keep) (map (fun nc => (nc.1, col_select keep nc.2)) (columns d)).

Definition col_take (n : nat) (c : column F) : column F :=
  match c with
  | NumCol xs => NumCol (take n xs)
  | ObjCol xs => ObjCol (take n xs)
  end.

(** [df.head(n)] *)
Definition head (n : nat) (d : DataFrame F) : DataFrame F :=
  Frame (min n (shape0 d)) (map (fun nc => (nc.1, col_take n nc.2)) (columns d)).

Definition is_numeric (c : column F) : bool :=
  match c with NumCol _ => true | ObjCol _ => false end.

(** [df.select_dtypes(include="number").columns.tolist()] *)
Definition select_number_columns (d : DataFrame F) : list string :=
  map fst (filter (fun nc => is_numeric nc.2) (columns d)).

(** [list(df.columns)] *)
Definition column_names (d : DataFrame F) : list string := map fst (columns d).

(** [df.shape[1]] *)
Definition shape1 (d : DataFrame F) : nat := length (columns d).

Definition empty_frame : DataFrame F := Frame 0 [].
End Frames.

(** ** Figures *)

(** What the script draws on an axes, with the data it passes. *)
Inductive artist (F : Type) :=
| Hist (s : column F) (bins : string)
| Boxplot (s : column F)
| Regplot (data : DataFrame F) (x y : string)
| Scatter (xs ys : list F)
| AxHLine (y : Z)
| Plot (xs ys : list F).

Arguments Hist {F} s bins.
Arguments Boxplot {F} s.
Arguments Regplot {F} data x y.
Arguments Scatter {F} xs ys.
Arguments AxHLine {F} y.
Arguments Plot {F} xs ys.

Record axes (F : Type) := Axes {
  ax_artists : list (artist F);
  ax_xlabel : string;
  ax_ylabel : string;
  ax_title : string
}.

Arguments Axes {F} ax_artists ax_xlabel ax_ylabel ax_title.

(** A matplotlib figure: its axes, left to right. *)
Definition Figure (F : Type) : Type := list (axes F).

(** ** Fitted models *)

(** A statistics table: column labels and labelled rows. *)
Record Table (F : Type) := MkTable {
  table_columns : list string;
  table_rows : list (string * list F)
}.

Arguments MkTable {F} table_columns table_rows.
Arguments table_columns {F} t.
Arguments table_rows {F} t.

(** The attributes of a statsmodels results object that the script reads. *)
Record OLSResults (F : Type) := {
  rsquared : F;
  rsquared_adj : F;
  fvalue : F;
  f_pvalue : F;
  aic : F;
  bic : F;
  nobs : F;
  df_resid : F;
  resid : list F;
  fittedvalues : list F;
  summary2_tables_1 : Table F;
  summary_as_text : string
}.

Arguments rsquared {F} o.
Arguments rsquared_adj {F} o.
Arguments fvalue {F} o.
Arguments f_pvalue {F} o.
Arguments aic {F} o.
Arguments bic {F} o.
Arguments nobs {F} o.
Arguments df_resid {F} o.
Arguments resid {F} o.
Arguments fittedvalues {F} o.
Arguments summary2_tables_1 {F} o.
Arguments summary_as_text {F} o.

(** ** The libraries the script calls *)

(** Everything the script delegates: Python's number formatting and float
    arithmetic, pandas readers and statistics, scipy, statsmodels.  A reader
    returns the frame or the exception it raises, and where it leaves the
    read pointer of the stream.  The statistics are functions of the Series
    they are given (on degenerate input they return NaN, itself a float).

    The fit is given the live Dataset and the text the user typed: patsy
    evaluates the terms of the formula as Python expressions in the
    namespace of the caller, where [df] is the Dataset itself.  So besides
    its result ([ols_fit]) the call has an effect on that object:
    [formula_effect formula d] is what the Dataset holds once the formula
    has been evaluated on a Dataset holding [d].  It is [d] for formulas
    whose terms only read ([y ~ x1 + x2], [C(group)], [np.log(x1)]); it is
    another frame for a term such as [df.pop('x1')]. *)
Class Libraries := {
  float : Type;
  float_of_nat : nat -> float;
  float_literal : string -> float;
  float_ltb : float -> float -> bool;
  float_mul : float -> float -> float;
  float_add : float -> float -> float;
  int_of_float : float -> Z;
  format_float : string -> float -> string;
  format_int : string -> Z -> string;
  read_csv : encoding -> list byte -> exn + DataFrame float;
  read_csv_tell : encoding -> list byte -> nat;
  read_excel : engine -> list byte -> exn + DataFrame float;
  describe : column float -> list nat -> list (string * float);
  skew : column float -> float;
  kurt : column float -> float;
  pearsonr : column float -> column float -> float * float;
  ols_fit : string -> DataFrame float -> exn + OLSResults float;
  formula_effect : string -> DataFrame float -> DataFrame float;
  probplot : list float -> (list float * list float) * (float * float)
}.

(** ** The world of one script run *)

Section Script.
Context `{L : Libraries}.

(** What [st.dataframe] is given. *)
Inductive shown :=
| ShownFrame (d : DataFrame float)
| ShownSummary (fmt : string) (rows : list (string * float))
| ShownCoef (fmt : string) (t : Table float) (p_value_css : list string).

(** The elements the run puts on the page, in order, and the calls it
    makes on the uploaded stream.  The elements after [StExpander] and
    [StColumns] up to the end of the function are inside those
    containers. *)
Inductive event :=
| StPageConfig (page_title layout : string)
| StTitle (s : string)
| StCaption (s : string)
| StDivider
| StHeader (s : string)
| StSubheader (s : string)
| StMarkdown (s : string)
| StInfo (s : string)
| StSuccess (s : string)
| StWarning (s : string)
| StError (s : string)
| StText (s : string)
| StWrite (l : list string)
| StExpander (label : string)
| StColumns (widths : list nat)
| StDataframe (x : shown)
| StTable (rows : list (string * string))
| StImage (fig : Figure float)
| IoReadCsv (enc : encoding) (pos : nat)
| IoSeek (pos : nat)
| IoReadExcel (eng : engine) (pos : nat).

(** The DataFrame objects alive (by reference), the read pointer of the
    uploaded stream, and the page so far. *)
Record world := World {
  frames : gmap nat (DataFrame float);
  stream_pos : nat;
  out : list event
}.

Definition M (A : Type) : Type := world -> outcome A * world.

Definition ret {A} (a : A) : M A := fun w => (Ret a, w).

Definition bind {A B} (m : M A) (k : A -> M B) : M B :=
  fun w =>
    match m w with
    | (Ret a, w') => k a w'
    | (Stop, w') => (Stop, w')
    | (Raise e, w') => (Raise e, w')
    end.

Definition raise {A} (e : exn) : M A := fun w => (Raise e, w).

(** [st.stop()] *)
Definition st_stop {A} : M A := fun w => (Stop, w).

(** [try: m  except <class>: h] *)
Definition try_except {A} (m : M A) (catches : exn -> bool) (h : exn -> M A) : M A :=
  fun w =>
    match m w with
    | (Raise e, w') => if catches e then h e w' else (Raise e, w')
    | r => r
    end.

Definition emit (e : event) : M unit :=
  fun w => (Ret tt, World (frames w) (stream_pos w) (out w ++ [e])).

(** A new DataFrame object, at a reference no live object has. *)
Definition new_frame (d : DataFrame float) : M nat :=
  fun w =>
    let l := fresh (dom (frames w)) in
    (Ret l, World (<[l := d]> (frames w)) (stream_pos w) (out w)).

(** Reading through a reference.  References are only ever obtained from
    [new_frame], so the object is there. *)
Definition deref (l : nat) : M (DataFrame float) :=
  fun w => (Ret (default empty_frame (frames w !! l)), w).

(** An in-place change of the object behind a reference. *)
Definition store (l : nat) (d : DataFrame float) : M unit :=
  fun w => (Ret tt, World (<[l := d]> (frames w)) (stream_pos w) (out w)).

(** [uploaded_file.seek(pos)] *)
Definition seek (pos : nat) : M unit :=
  fun w => (Ret tt, World (frames w) pos (out w ++ [IoSeek pos])).

Fixpoint for_each {A} (l : list A) (body : A -> M unit) : M unit :=
  match l with
  | [] => ret tt
  | x :: r => bind (body x) (fun _ => for_each r body)
  end.
End Script.

Declare Scope script_scope.
Delimit Scope script_scope with script.
Notation "'let*' x ':=' m 'in' k" := (bind m (fun x => k))
  (at level 10, x pattern, m at level 100, k at level 200) : script_scope.
Notation "m1 '>>' m2" := (bind m1 (fun _ => m2))
  (at level 90, right associativity) : script_scope.
Local Open Scope script_scope.

(** ** utils/data_io.py and utils/plotting.py *)

Section DataIO.
Context `{L : Libraries}.

(** [pd.read_csv(uploaded_file, encoding=enc)]: reads from the current
    position of the stream; on success the frame is a new object. *)
Definition pd_read_csv (f : UploadedFile) (enc : encoding) : M nat :=
  fun w =>
    let data := drop (stream_pos w) (file_bytes f) in
    let w1 := World (frames w)
                    (stream_pos w + read_csv_tell enc data)
                    (out w ++ [IoReadCsv enc (stream_pos w)]) in
    match read_csv enc data with
    | inl e => (Raise e, w1)
    | inr d => new_frame d w1
    end.

(** [pd.read_excel(uploaded_file, engine=eng)] *)
Definition pd_read_excel (f : UploadedFile) (eng : engine) : M nat :=
  fun w =>
    let data := drop (stream_pos w) (file_bytes f) in
    let w1 := World (frames w) (stream_pos w)
                    (out w ++ [IoReadExcel eng (stream_pos w)]) in
    match read_excel eng data with
    | inl e => (Raise e, w1)
    | inr d => new_frame d w1
    end.

Definition load_data (uploaded_file : UploadedFile) : M nat :=
  let name := lower (file_name uploaded_file) in
  if endswith name ".csv" then
    try_except (pd_read_csv uploaded_file Utf8) is_UnicodeDecodeError
      (fun _ => seek 0 >> pd_read_csv uploaded_file Latin1)
  else if existsb (endswith name) [".xlsx"; ".xls"] then
    pd_read_excel uploaded_file Openpyxl
  else
    emit (StError "Unsupported file type. Please upload a .csv or .xlsx file.") >>
    st_stop.

Definition numeric_cols (df : nat) : M (list string) :=
  let* d := deref df in
  ret (select_number_columns d).

(** [fig_to_streamlit(fig)]: the figure is saved to a buffer, shown with
    [st.image] and closed. *)
Definition fig_to_streamlit (fig : Figure float) : M unit :=
  emit (StImage fig).
End DataIO.

(** ** sections/upload.py *)

Section Upload.
Context `{L : Libraries}.

Definition upload_render (inp : Inputs) : M (option (nat * list string)) :=
  emit (StHeader "1 · Upload your data") >>
  match in_uploaded inp with
  | None =>
      emit (StInfo "Upload a file above to get started.") >>
      ret None
  | Some uploaded =>
      let* df := load_data uploaded in
      let* d := deref df in
      emit (StSuccess ("Loaded **" ++ format_int "," (Z.of_nat (shape0 d))
                       ++ " rows × " ++ format_int EmptyString (Z.of_nat (shape1 d))
                       ++ " columns**")) >>
      emit (StExpander "Preview data (first 10 rows)") >>
      let* preview := new_frame (head 10 d) in
      let* p := deref preview in
      emit (StDataframe (ShownFrame p)) >>
      let* cols := numeric_cols df in
      if (length cols =? 0)%nat then
        emit (StError "No numeric columns found. StatApp needs at least one numeric column.") >>
        st_stop
      else
        ret (Some (df, cols))
  end.
End Upload.

(** ** sections/univariate.py *)

Section Univariate.
Context `{L : Libraries}.

Definition PRIMARY_COLOR : string := "steelblue".
Definition ACCENT_COLOR : string := "crimson".

(** The figure is described by what is drawn on it.  The drawing calls
    are taken to succeed: a series on which [ax.hist] or [ax.boxplot]
    raises (non-finite values) has no error path here. *)
Definition _histogram_boxplot (series : column float) (label : string)
    : Figure float :=
  let ax_hist := Axes [Hist series "auto"] label "Count" "Histogram" in
  let ax_box := Axes [Boxplot series] EmptyString EmptyString "Boxplot" in
  [ax_hist; ax_box].

(** [df[col]], with the [KeyError] of an unknown label *)
Definition df_getitem (df : nat) (col : string) : M (column float) :=
  let* d := deref df in
  match getitem d col with
  | Some c => ret c
  | None => raise (Exn KeyError col)
  end.

(** The table [_render_variable] builds: [describe] followed by the three
    extra statistics. *)
Definition summary_rows (series : column float) (n_missing : nat)
    : list (string * float) :=
  let desc := describe series [5; 25; 50; 75; 95]%nat in
  let extra := [ ("skewness", skew series);
                 ("kurtosis (excess)", kurt series);
                 ("missing", float_of_nat n_missing) ] in
  desc ++ extra.

Definition _render_variable (df : nat) (col : string) : M unit :=
  let* c := df_getitem df col in
  let series := series_dropna c in
  let* c' := df_getitem df col in
  let n_missing := sum_bool (isna c') in
  let summary := summary_rows series n_missing in
  emit (StColumns [1; 2]%nat) >>
  emit (StDataframe (ShownSummary "{:.4f}" summary)) >>
  let fig := _histogram_boxplot series col in
  fig_to_streamlit fig.

Definition univariate_render (inp : Inputs) (df : nat) (num_cols : list string)
    : M unit :=
  emit (StHeader "2 · Univariate EDA") >>
  emit (StMarkdown ("Select one or more variables. For each you'll see summary statistics, "
                    ++ "a histogram (distribution shape), and a boxplot (spread + outliers).")) >>
  let selected := multiselect num_cols (take 1 num_cols) (in_univariate inp) in
  for_each selected (fun col =>
    emit (StSubheader ("Variable: `" ++ col ++ "`")) >>
    _render_variable df col).
End Univariate.

(** ** sections/bivariate.py *)

Section Bivariate.
Context `{L : Libraries}.

(** [df[[x_col, y_col]]]: a new frame, or the [KeyError] *)
Definition df_getitems (df : nat) (names : list string) : M nat :=
  let* d := deref df in
  match getitems d names with
  | Some sub => new_frame sub
  | None => raise (Exn KeyError (join ", " names))
  end.

(** [pair.dropna()]: a new frame *)
Definition df_dropna (df : nat) : M nat :=
  let* d := deref df in
  new_frame (frame_dropna d).

(** After the guard on [len(pair)], [pearsonr] and [regplot] are taken to
    succeed on the two columns, which [render] picks among the numeric
    labels with [x_col] other than [y_col]. *)
Definition _render_pair (df : nat) (x_col y_col : string) : M unit :=
  let* sub := df_getitems df [x_col; y_col] in
  let* pair_ := df_dropna sub in
  let* p := deref pair_ in
  if (shape0 p <? 3)%nat then
    emit (StWarning ("Not enough non-missing data to correlate `" ++ x_col
                     ++ "` and `" ++ y_col ++ "`."))
  else
    let* xs := df_getitem pair_ x_col in
    let* ys := df_getitem pair_ y_col in
    let '(r, p_val) := pearsonr xs ys in
    emit (StSubheader ("`" ++ x_col ++ "` vs `" ++ y_col ++ "`")) >>
    emit (StMarkdown ("**Pearson r = " ++ format_float ".3f" r ++ "** &nbsp;|&nbsp; "
                      ++ "p-value = " ++ format_float ".4f" p_val ++ " &nbsp;|&nbsp; "
                      ++ "n = " ++ format_int "," (Z.of_nat (shape0 p)))) >>
    let fig := [Axes [Regplot p x_col y_col] x_col y_col
                     (y_col ++ " ~ " ++ x_col ++ "  (r = " ++ format_float ".3f" r ++ ")")] in
    fig_to_streamlit fig.

Definition bivariate_render (inp : Inputs) (df : nat) (num_cols : list string)
    : M (option string) :=
  emit (StHeader "3 · Bivariate EDA") >>
  emit (StMarkdown ("Choose a **Y** (outcome) and one or more **X** (predictors). "
                    ++ "Each scatterplot includes the Pearson correlation *r* and a linear trend line.")) >>
  match num_cols with
  | [] | [_] =>
      emit (StWarning "Need at least 2 numeric columns for bivariate analysis.") >>
      ret None
  | first :: _ =>
      let y_col := selectbox num_cols first (in_y inp) in
      let x_options := filter (fun c => negb (String.eqb c y_col)) num_cols in
      let x_cols := multiselect x_options (take 1 x_options) (in_xs inp) in
      for_each x_cols (fun x_col => _render_pair df x_col y_col) >>
      ret (Some y_col)
  end.
End Bivariate.

(** ** sections/regression.py *)

Section Regression.
Context `{L : Libraries}.

Definition _show_fit_metrics (model : OLSResults float) : M unit :=
  emit (StSubheader "Model fit") >>
  let metrics :=
    [ ("R²", format_float ".4f" (rsquared model));
      ("Adjusted R²", format_float ".4f" (rsquared_adj model));
      ("F-statistic", format_float ".4f" (fvalue model));
      ("Prob (F-statistic)", format_float ".4e" (f_pvalue model));
      ("AIC", format_float ".2f" (aic model));
      ("BIC", format_float ".2f" (bic model));
      ("Observations", format_int "," (int_of_float (nobs model)));
      ("Df Residuals", format_int "," (int_of_float (df_resid model))) ] in
  emit (StTable metrics).

(** [DataFrame.rename(columns={...})] on the column labels *)
Definition rename_label (mapping : list (string * string)) (c : string) : string :=
  match find (fun kv => String.eqb kv.1 c) mapping with
  | Some kv => kv.2
  | None => c
  end.

Fixpoint index_of (c : string) (cols : list string) : option nat :=
  match cols with
  | [] => None
  | h :: r => if String.eqb h c then Some 0%nat else S <$> index_of c r
  end.

Definition _highlight_sig (val : float) : string :=
  if float_ltb val (float_literal "0.05") then "background-color: #d4edda" else EmptyString.

Definition _show_coef_table (model : OLSResults float) : M unit :=
  emit (StSubheader "Coefficients") >>
  let t := summary2_tables_1 model in
  let coef_df :=
    MkTable (map (rename_label [ ("Coef.", "Estimate");
                                 ("Std.Err.", "Std. Error");
                                 ("t", "t-stat");
                                 ("P>|t|", "p-value");
                                 ("[0.025", "CI 2.5%");
                                 ("0.975]", "CI 97.5%") ])
                 (table_columns t))
            (table_rows t) in
  match index_of "p-value" (table_columns coef_df) with
  | None => raise (Exn KeyError "p-value")
  | Some i =>
      let css := map (fun row => from_option _highlight_sig EmptyString (row.2 !! i))
                     (table_rows coef_df) in
      emit (StDataframe (ShownCoef "{:.4f}" coef_df css))
  end.

Definition _show_diagnostics (model : OLSResults float) : M unit :=
  emit (StSubheader "Diagnostics") >>
  let residuals := resid model in
  let fitted := fittedvalues model in
  let ax0 := Axes [Scatter fitted residuals; AxHLine 0]
                  "Fitted values" "Residuals" "Residuals vs Fitted" in
  let '((osm, osr), (slope, intercept)) := probplot residuals in
  let ax1 := Axes [Scatter osm osr;
                   Plot osm (map (fun q => float_add (float_mul slope q) intercept) osm)]
                  "Theoretical quantiles" "Sample quantiles" "Q-Q Plot (residuals)" in
  fig_to_streamlit [ax0; ax1].

(** [smf.ols(formula=formula, data=df).fit()]: the formula is evaluated
    against the live Dataset, which is left as that evaluation leaves it,
    whether the call then returns a model or raises. *)
Definition smf_ols_fit (formula : string) (df : nat) : M (OLSResults float) :=
  let* d := deref df in
  store df (formula_effect formula d) >>
  match ols_fit formula d with
  | inl e => raise e
  | inr model => ret model
  end.

Definition _fit_and_display (df : nat) (formula : string) : M unit :=
  let* fitted :=
    try_except (let* model := smf_ols_fit formula df in ret (Some model))
      is_Exception
      (fun exc =>
         emit (StError ("**Model failed:** " ++ exn_str exc)) >>
         emit (StInfo ("Common causes: typo in column name, column name with spaces "
                       ++ "(use Q('col name')), or a column that is all-missing.")) >>
         ret None) in
  match fitted with
  | None => ret tt
  | Some model =>
      _show_fit_metrics model >>
      _show_coef_table model >>
      _show_diagnostics model >>
      emit (StExpander "Full statsmodels summary (text)") >>
      emit (StText (summary_as_text model))
  end.

Definition regression_render (inp : Inputs) (df : nat) (num_cols : list string)
    (default_y : option string) : M unit :=
  emit (StHeader "4 · OLS Regression") >>
  emit (StMarkdown ("Type your model formula using **Patsy notation** (same as R). Examples:" ++ newline
                    ++ "- `salary ~ age + experience`" ++ newline
                    ++ "- `price ~ np.log(area) + bedrooms + C(city)` — `C()` makes a variable categorical" ++ newline
                    ++ "- `y ~ x1 + x2 + x1:x2` — `:` is an interaction term" ++ newline
                    ++ "- `Q('col name') ~ x` — wrap column names that contain spaces in `Q()`")) >>
  emit (StExpander "Available columns") >>
  let* d := deref df in
  emit (StWrite (column_names d)) >>
  let y_default :=
    match default_y with
    | Some y => if String.eqb y EmptyString then List.hd "y" num_cols else y
    | None => List.hd "y" num_cols
    end in
  let xs_default := take 3 (filter (fun c => negb (String.eqb c y_default)) num_cols) in
  let formula_default :=
    match xs_default with
    | [] => y_default
    | _ => (y_default ++ " ~ " ++ join " + " xs_default)%string
    end in
  let formula := text_input formula_default (in_formula inp) in
  if negb (in_fit_clicked inp) then ret tt
  else _fit_and_display df formula.
End Regression.

(** ** app.py *)

Section App.
Context `{L : Libraries}.

(** The names the imports of [app.py] bind (lines 22 to 27).  The
    univariate module is imported [as univariateßß]: that is the name bound,
    and [univariate] is not. *)
Definition app_names : list string :=
  [ "warnings"; "st"; "upload"; "univariateßß"; "bivariate"; "regression" ].

(** Evaluating a global name of [app.py]: an unbound name raises
    [NameError]. *)
Definition lookup_name (name : string) : M unit :=
  if existsb (String.eqb name) app_names then ret tt
  else raise (Exn NameError ("name '" ++ name ++ "' is not defined")).

Definition app (inp : Inputs) : M unit :=
  emit (StPageConfig "StatApp" "wide") >>
  emit (StTitle "📊 StatApp") >>
  emit (StCaption "Upload data · Explore · Regress") >>
  emit StDivider >>
  lookup_name "upload" >>
  let* loaded := upload_render inp in
  match loaded with
  | None => st_stop
  | Some (df, num_cols) =>
      emit StDivider >>
      lookup_name "univariate" >>
      univariate_render inp df num_cols >>
      emit StDivider >>
      lookup_name "bivariate" >>
      let* selected_y := bivariate_render inp df num_cols in
      emit StDivider >>
      lookup_name "regression" >>
      regression_render inp df num_cols selected_y
  end.

(** The world at the start of a run: no frame yet, stream at its start,
    empty page. *)
Definition initial_world : world := World ∅ 0 [].

Definition run (inp : Inputs) : outcome unit * world := app inp initial_world.

(** The sections a user can have re-rendered on a loaded frame. *)
Inductive section_render :=
| RenderUnivariate
| RenderBivariate
| RenderRegression (default_y : option string).

Definition render_section (df : nat) (num_cols : list string)
    (r : Inputs * section_render) : M unit :=
  match r.2 with
  | RenderUnivariate => univariate_render r.1 df num_cols
  | RenderBivariate => bivariate_render r.1 df num_cols >> ret tt
  | RenderRegression default_y => regression_render r.1 df num_cols default_y
  end.

(** Any sequence of section renders, one after the other in the same
    world, whatever each one's outcome. *)
Fixpoint render_sequence (df : nat) (num_cols : list string)
    (rs : list (Inputs * section_render)) (w : world) : world :=
  match rs with
  | [] => w
  | r :: rest => render_sequence df num_cols rest (render_section df num_cols r w).2
  end.
End App.

(** ** Vocabulary of the statements *)

Section FrameFacts.
Context {F : Type}.
Implicit Types (c : column F) (d : DataFrame F) (mask : list bool).

(** The number of non-missing cells, counted directly on the cells. *)
Definition present {A} (xs : list (option A)) : nat :=
  length (filter (fun o => negb (is_none o)) xs).

Definition non_missing c : nat :=
  match c with
  | NumCol xs => present xs
  | ObjCol xs => present xs
  end.

(** The number of rows on which both cells are present. *)
Definition valid_pairs (cx cy : column F) : nat :=
  sum_bool (zip_with andb (notna cx) (notna cy)).

(** [keep] selects only rows that [mask] has. *)
Definition within (keep mask : list bool) : Prop :=
  Forall2 (fun k b => k = true -> b = true) keep mask.

(** No cell of the column is missing. *)
Definition no_missing (c : column F) : Prop := sum_bool (isna c) = 0.
End FrameFacts.

Section Vocabulary.
Context `{L : Libraries}.

(** Every frame alive before the call is alive and unchanged after it. *)
Definition keeps_frames {A} (m : M A) : Prop :=
  forall w, frames w ⊆ frames (m w).2.

(** As long as the Dataset at [df] holds [d], every frame alive before the
    call is alive and unchanged after it. *)
Definition keeps_live {A} (df : nat) (d : DataFrame float) (m : M A) : Prop :=
  forall w, frames w !! df = Some d -> frames w ⊆ frames (m w).2.

(** What [app.py] has put on the page when it calls [upload.render]. *)
Definition page_top : list event :=
  [ StPageConfig "StatApp" "wide"; StTitle "📊 StatApp";
    StCaption "Upload data · Explore · Regress"; StDivider ].

(** The world in which [upload.render] calls [load_data] during a run. *)
Definition at_load : world :=
  World ∅ 0 (page_top ++ [StHeader "1 · Upload your data"]).
End Vocabulary.

Create HintDb keeps.

(** Running a piece of script symbolically: unfold the monad, compute, and
    use the equations at hand (what a reference points to, what a library
    call returned). *)
Ltac use_equations :=
  repeat first
    [ progress simpl
    | rewrite lookup_insert_eq
    | match goal with
      | H : ?x = _ |- context [?x] => rewrite H
      end ].

Ltac run_script :=
  unfold bind, deref, ret, emit, raise, st_stop, try_except, new_frame, seek, store;
  use_equations.

(** ** A small library instance and sample inputs

    Used only to run the script on concrete files.  Integers stand in for
    floats and the statistics are placeholders; the readers know a handful
    of sample files.  Nothing proved for all instances depends on it. *)

Module Sample.

Definition text (s : string) : list byte := list_byte_of_string s.

(** [name\nalice\nbob\n]: one text column *)
Definition people_csv : list byte :=
  text ("name" ++ newline ++ "alice" ++ newline ++ "bob" ++ newline).

Definition people_frame : DataFrame Z :=
  Frame 2 [("name", ObjCol [Some "alice"; Some "bob"])].

(** The age / income table of the regression scenario *)
Definition income_csv : list byte :=
  text ("age,income" ++ newline ++ "25,30000" ++ newline ++ "30,40000" ++ newline
        ++ "35,50000" ++ newline ++ "40,60000" ++ newline).

Definition income_frame : DataFrame Z :=
  Frame 4 [("age", NumCol [Some 25; Some 30; Some 35; Some 40]);
           ("income", NumCol [Some 30000; Some 40000; Some 50000; Some 60000])]%Z.

(** A table with gaps: [c] is entirely missing *)
Definition gaps_frame : DataFrame Z :=
  Frame 4 [("a", NumCol [Some 1; None; Some 3; Some 7]);
           ("b", NumCol [None; Some 2; Some 4; None]);
           ("c", NumCol [None; None; None; None])]%Z.

(** [ville,pop\nOrl\xe9ans,3\n]: Latin-1 text, not valid UTF-8 *)
Definition latin1_csv : list byte :=
  text ("ville,pop" ++ newline ++ "Orl") ++ [xe9] ++ text ("ans,3" ++ newline).

Definition latin1_frame : DataFrame Z :=
  Frame 1 [("ville", ObjCol [Some ("Orl" ++ String (ascii_of_byte xe9) "ans")%string]);
           ("pop", NumCol [Some 3%Z])].

(** A stream no reader accepts: an invalid UTF-8 byte, then nothing to
    parse. *)
Definition broken_csv : list byte := [xff].

Definition same_bytes (a b : list byte) : bool :=
  String.eqb (string_of_list_byte a) (string_of_list_byte b).

Definition demo_read_csv (enc : encoding) (data : list byte) : exn + DataFrame Z :=
  if same_bytes data people_csv then inr people_frame
  else if same_bytes data income_csv then inr income_frame
  else if same_bytes data latin1_csv then
    match enc with
    | Utf8 => inl (Exn UnicodeDecodeError "'utf-8' codec can't decode byte 0xe9")
    | Latin1 => inr latin1_frame
    end
  else if same_bytes data broken_csv then
    match enc with
    | Utf8 => inl (Exn UnicodeDecodeError "'utf-8' codec can't decode byte 0xff")
    | Latin1 => inl (Exn ParserError "Error tokenizing data")
    end
  else inl (Exn EmptyDataError "No columns to parse from file").

(** An [.xlsx] workbook is a ZIP archive and starts with [PK\x03\x04]; a
    legacy [.xls] workbook is an OLE2 compound file and starts with
    [\xd0\xcf\x11\xe0].  openpyxl opens the former only, xlrd the latter
    only. *)
Definition xlsx_bytes : list byte := [x50; x4b; x03; x04; x14; x00].
Definition xls_bytes : list byte := [xd0; xcf; x11; xe0; xa1; xb1; x1a; xe1].

Definition is_zip (data : list byte) : bool :=
  same_bytes (take 4 data) [x50; x4b; x03; x04].

Definition is_ole2 (data : list byte) : bool :=
  same_bytes (take 4 data) [xd0; xcf; x11; xe0].

Definition demo_read_excel (eng : engine) (data : list byte) : exn + DataFrame Z :=
  match eng with
  | Openpyxl =>
      if is_zip data then inr income_frame
      else inl (Exn BadZipFile "File is not a zip file")
  | Xlrd =>
      if is_ole2 data then inr income_frame
      else inl (Exn ValueError "Unsupported format, or corrupt file")
  end.

Definition demo_fit (formula : string) (d : DataFrame Z) : exn + OLSResults Z :=
  inl (Exn PatsyError ("Error evaluating factor: " ++ formula)).

#[export] Instance demo : Libraries := {|
  float := Z;
  float_of_nat := Z.of_nat;
  float_literal := fun _ => 0%Z;
  float_ltb := Z.ltb;
  float_mul := Z.mul;
  float_add := Z.add;
  int_of_float := fun z => z;
  format_float := fun _ z => pretty z;
  format_int := fun _ z => pretty z;
  read_csv := demo_read_csv;
  read_csv_tell := fun _ data => length data;
  read_excel := demo_read_excel;
  describe := fun s _ => [("count", Z.of_nat (series_len (series_dropna s)))];
  skew := fun _ => 0%Z;
  kurt := fun _ => 0%Z;
  pearsonr := fun _ _ => (0%Z, 1%Z);
  ols_fit := demo_fit;
  formula_effect := fun _ d => d;
  probplot := fun r => (([], r), (1%Z, 0%Z))
|}.

Definition upload (name : string) (data : list byte) : Inputs :=
  {| in_uploaded := Some {| file_name := name; file_bytes := data |};
     in_univariate := None; in_y := None; in_xs := None;
     in_formula := None; in_fit_clicked := false |}.

Definition no_choice : Inputs :=
  {| in_uploaded := None; in_univariate := None; in_y := None; in_xs := None;
     in_formula := None; in_fit_clicked := true |}.

(** A world in which frame [d] is the loaded dataset, at reference 0. *)
Definition loaded (d : DataFrame Z) : world := World {[ 0%nat := d ]} 0 [].

(** The same instance with another behaviour of the fit. *)
Definition with_fit (fit : string -> DataFrame Z -> exn + OLSResults Z) : Libraries := {|
  float := Z;
  float_of_nat := Z.of_nat;
  float_literal := fun _ => 0%Z;
  float_ltb := Z.ltb;
  float_mul := Z.mul;
  float_add := Z.add;
  int_of_float := fun z => z;
  format_float := fun _ z => pretty z;
  format_int := fun _ z => pretty z;
  read_csv := demo_read_csv;
  read_csv_tell := fun _ data => length data;
  read_excel := demo_read_excel;
  describe := fun s _ => [("count", Z.of_nat (series_len (series_dropna s)))];
  skew := fun _ => 0%Z;
  kurt := fun _ => 0%Z;
  pearsonr := fun _ _ => (0%Z, 1%Z);
  ols_fit := fit;
  formula_effect := fun _ d => d;
  probplot := fun r => (([], r), (1%Z, 0%Z))
|}.

(** A fit interrupted from the keyboard. *)
Definition interrupted_fit (formula : string) (d : DataFrame Z) : exn + OLSResults Z :=
  inl (Exn KeyboardInterrupt EmptyString).

(** A results object with the layout statsmodels gives it: two terms, six
    columns per term. *)
Definition income_model : OLSResults Z := {|
  rsquared := 1; rsquared_adj := 1; fvalue := 0; f_pvalue := 0;
  aic := 0; bic := 0; nobs := 4; df_resid := 2;
  resid := [0; 0; 0; 0];
  fittedvalues := [30000; 40000; 50000; 60000];
  summary2_tables_1 :=
    MkTable ["Coef."; "Std.Err."; "t"; "P>|t|"; "[0.025"; "0.975]"]
            [ ("Intercept", [-20000; 0; 0; 0; -20000; -20000]);
              ("age", [2000; 0; 0; 0; 2000; 2000]) ];
  summary_as_text := "OLS Regression Results"
|}%Z.

Definition fitted (formula : string) (d : DataFrame Z) : exn + OLSResults Z :=
  inr income_model.

(** Evaluating the term [df.pop('age')] takes the column out of the
    Dataset. *)
Definition pop_age_formula : string := "income ~ df.pop('age')".

Definition pop_age (formula : string) (d : DataFrame Z) : DataFrame Z :=
  if String.eqb formula pop_age_formula
  then Frame (shape0 d) (filter (fun nc => negb (String.eqb nc.1 "age")) (columns d))
  else d.

(** The instance in which the fit succeeds and formulas have that effect. *)
Definition popping : Libraries := {|
  float := Z;
  float_of_nat := Z.of_nat;
  float_literal := fun _ => 0%Z;
  float_ltb := Z.ltb;
  float_mul := Z.mul;
  float_add := Z.add;
  int_of_float := fun z => z;
  format_float := fun _ z => pretty z;
  format_int := fun _ z => pretty z;
  read_csv := demo_read_csv;
  read_csv_tell := fun _ data => length data;
  read_excel := demo_read_excel;
  describe := fun s _ => [("count", Z.of_nat (series_len (series_dropna s)))];
  skew := fun _ => 0%Z;
  kurt := fun _ => 0%Z;
  pearsonr := fun _ _ => (0%Z, 1%Z);
  ols_fit := fitted;
  formula_effect := pop_age;
  probplot := fun r => (([], r), (1%Z, 0%Z))
|}.

Definition fit_pop_age : Inputs :=
  {| in_uploaded := None; in_univariate := None; in_y := None; in_xs := None;
     in_formula := Some pop_age_formula; in_fit_clicked := true |}.

Definition fit_not_clicked : Inputs :=
  {| in_uploaded := None; in_univariate := Some ["c"; "a"; "zzz"]; in_y := Some "b";
     in_xs := Some ["a"; "b"; "c"]; in_formula := Some "a ~ b"; in_fit_clicked := false |}.

End Sample.

(** * Properties *)

(** ** Frames: counting missing cells, dropping them *)


Section FrameLemmas.
Context {F : Type}.
Implicit Types (c : column F) (d : DataFrame F) (mask : list bool).

Lemma select_length {A} mask (l : list A) :
  length mask = length l -> length (select mask l) = sum_bool mask.
Proof.
  revert l. induction mask as [|b m IH]; intros [|x r] Hlen; simpl in *;
    try discriminate; auto.
  destruct b; simpl; rewrite IH by lia; reflexivity.
Qed.

Lemma sum_bool_negb mask :
  sum_bool (map negb mask) + sum_bool mask = length mask.
Proof.
  induction mask as [|[] m IH]; simpl; lia.
Qed.

Lemma isna_length c : length (isna c) = col_len c.
Proof. destruct c; simpl; apply length_map. Qed.

Lemma notna_length c : length (notna c) = col_len c.
Proof. unfold notna. rewrite length_map. apply isna_length. Qed.

Lemma col_select_len mask c :
  length mask = col_len c -> col_len (col_select mask c) = sum_bool mask.
Proof. destruct c; simpl; apply select_length. Qed.

(** [len(s.dropna()) + s.isna().sum() = len(s)] *)
Lemma dropna_isna_total c :
  series_len (series_dropna c) + sum_bool (isna c) = col_len c.
Proof.
  unfold series_len, series_dropna.
  rewrite col_select_len by apply notna_length.
  unfold notna. rewrite sum_bool_negb. apply isna_length.
Qed.

Lemma sum_notna_present {A} (xs : list (option A)) :
  sum_bool (map negb (map is_none xs)) = present xs.
Proof.
  unfold present. induction xs as [|[a|] r IH]; simpl; auto.
Qed.

(** [len(s.dropna())] is the number of non-missing cells. *)
Lemma dropna_len_non_missing c :
  series_len (series_dropna c) = non_missing c.
Proof.
  unfold series_len, series_dropna.
  rewrite col_select_len by apply notna_length.
  destruct c; simpl; apply sum_notna_present.
Qed.

Lemma getitem_cols_elem cols name c :
  getitem_cols cols name = Some c -> (name, c) ∈ cols.
Proof.
  induction cols as [|[n c'] r IH]; simpl; [discriminate|].
  destruct (String.eqb_spec n name) as [->|Hne]; intros H.
  - injection H as ->. apply list_elem_of_here.
  - apply list_elem_of_further, IH, H.
Qed.

(** In a well-formed frame, [len(df[name]) = len(df)]. *)
Lemma getitem_len d name c :
  frame_wf d -> getitem d name = Some c -> col_len c = shape0 d.
Proof.
  intros Hwf Hget. apply getitem_cols_elem in Hget.
  unfold frame_wf in Hwf. rewrite Forall_forall in Hwf.
  apply (Hwf (name, c)), Hget.
Qed.
End FrameLemmas.

(** ** The univariate section *)

Section UnivariateFacts.
Context `{L : Libraries}.

Lemma present_zero_select {A} (xs : list (option A)) :
  present xs = 0 -> select (map negb (map is_none xs)) xs = [].
Proof.
  unfold present. induction xs as [|[a|] r IH]; simpl; intros H; auto.
  discriminate.
Qed.

Lemma present_zero_isna {A} (xs : list (option A)) :
  present xs = 0 -> sum_bool (map is_none xs) = length xs.
Proof.
  unfold present. induction xs as [|[a|] r IH]; simpl; intros H; auto.
  discriminate.
Qed.

(** What [_render_variable] does on any column the frame has: it returns,
    having shown the summary table and the figure of [df[col].dropna()]. *)
Lemma _render_variable_run (w : world) df d col c :
  frames w !! df = Some d ->
  getitem d col = Some c ->
  _render_variable df col w =
    (Ret tt,
     World (frames w) (stream_pos w)
           (out w ++ [ StColumns [1; 2]%nat;
                       StDataframe (ShownSummary "{:.4f}"
                         (summary_rows (series_dropna c) (sum_bool (isna c))));
                       StImage (_histogram_boxplot (series_dropna c) col) ])).
Proof.
  intros Hw Hget.
  unfold _render_variable, df_getitem, fig_to_streamlit.
  run_script. rewrite <- !app_assoc. reflexivity.
Qed.

(** C8: for a numeric column with [k = present xs] non-missing values in
    a frame of [shape0 d] rows, the last row of the summary table shown by
    [_render_variable] is [missing = float(shape0 d - k)], after the rows
    of [describe], the skewness and the excess kurtosis. *)
Theorem missing_is_rows_minus_present (w : world) df d col xs :
  frames w !! df = Some d ->
  frame_wf d ->
  getitem d col = Some (NumCol xs) ->
  let series := series_dropna (NumCol xs) in
  series_len series = present xs /\
  _render_variable df col w =
    (Ret tt,
     World (frames w) (stream_pos w)
           (out w ++ [ StColumns [1; 2]%nat;
                       StDataframe (ShownSummary "{:.4f}"
                         (describe series [5; 25; 50; 75; 95]%nat
                          ++ [ ("skewness", skew series);
                               ("kurtosis (excess)", kurt series);
                               ("missing", float_of_nat (shape0 d - present xs)) ]));
                       StImage (_histogram_boxplot series col) ])).
Proof.
  intros Hw Hwf Hget series.
  assert (series_len series = present xs) as Hk
    by apply (dropna_len_non_missing (NumCol xs)).
  split; [exact Hk|].
  rewrite (_render_variable_run w df d col (NumCol xs) Hw Hget).
  assert (sum_bool (isna (NumCol xs)) = shape0 d - present xs) as ->.
  { pose proof (dropna_isna_total (NumCol xs)) as Htot.
    rewrite (getitem_len d col _ Hwf Hget) in Htot.
    change (series_dropna (NumCol xs)) with series in Htot. lia. }
  reflexivity.
Qed.

(** For a column without any non-missing value, [df[col].dropna()] is the
    empty series and [df[col].isna().sum()] is the length of the column. *)
Lemma all_missing_series_is_empty (xs : list (option float)) :
  present xs < 1 ->
  series_dropna (NumCol xs) = NumCol [] /\ sum_bool (isna (NumCol xs)) = length xs.
Proof.
  intros Hk. assert (present xs = 0) as H0 by lia. split.
  - unfold series_dropna, notna. simpl. f_equal. apply present_zero_select, H0.
  - simpl. apply present_zero_isna, H0.
Qed.
End UnivariateFacts.

(** ** The bivariate section *)

Section BivariateFacts.
Context `{L : Libraries}.

Lemma zip_andb_all_true (mask : list bool) n :
  length mask = n -> zip_with andb mask (repeat true n) = mask.
Proof.
  revert n. induction mask as [|b m IH]; intros [|n] Hlen; simpl in *;
    try discriminate; auto.
  rewrite andb_true_r, IH by lia. reflexivity.
Qed.

(** [len(df[[x, y]].dropna())] is the number of rows on which both cells
    are present. *)
Lemma pair_dropna_len (d : DataFrame float) x y cx cy :
  frame_wf d ->
  getitem d x = Some cx ->
  getitem d y = Some cy ->
  shape0 (frame_dropna (Frame (shape0 d) [(x, cx); (y, cy)])) = valid_pairs cx cy.
Proof.
  intros Hwf Hx Hy. unfold frame_dropna, valid_pairs. simpl.
  rewrite zip_andb_all_true; [reflexivity|].
  rewrite notna_length. apply (getitem_len d y cy Hwf Hy).
Qed.

(** C5: when fewer than three rows have both the X and the Y cell present,
    [_render_pair] shows the warning and returns: that warning is the only
    element it adds to the page, so no correlation line (r, p-value, n) and
    no plot is shown.  The statement holds whatever [pearsonr] would
    compute: it is not consulted. *)
Theorem too_few_pairs_warns_only (w : world) df d x_col y_col cx cy :
  frames w !! df = Some d ->
  frame_wf d ->
  getitem d x_col = Some cx ->
  getitem d y_col = Some cy ->
  valid_pairs cx cy < 3 ->
  exists w',
    _render_pair df x_col y_col w = (Ret tt, w') /\
    out w' = out w ++ [ StWarning ("Not enough non-missing data to correlate `"
                                   ++ x_col ++ "` and `" ++ y_col ++ "`.") ].
Proof.
  intros Hw Hwf Hx Hy Hn.
  pose proof (pair_dropna_len d x_col y_col cx cy Hwf Hx Hy) as Hlen.
  assert ((shape0 (frame_dropna (Frame (shape0 d) [(x_col, cx); (y_col, cy)])) <? 3)%nat
          = true) as Hlt by (apply Nat.ltb_lt; lia).
  unfold frame_dropna in Hlt. simpl in Hlt.
  unfold _render_pair, df_getitems, df_dropna, getitems. run_script.
  eexists. split; reflexivity.
Qed.
End BivariateFacts.

(** ** The regression section *)

Section RegressionFacts.
Context `{L : Libraries}.


(** When the fit returns a model, no error is shown: the page gets the fit
    metrics, then the coefficient table, the diagnostics and the text
    summary, as far as those helpers go. *)
Lemma successful_fit_displays (w : world) df d formula model :
  frames w !! df = Some d ->
  ols_fit formula d = inr model ->
  _fit_and_display df formula w =
    (_show_fit_metrics model >>
     _show_coef_table model >>
     _show_diagnostics model >>
     emit (StExpander "Full statsmodels summary (text)") >>
     emit (StText (summary_as_text model)))
      (World (<[df := formula_effect formula d]> (frames w)) (stream_pos w) (out w)).
Proof.
  intros Hw Hfit.
  unfold _fit_and_display, smf_ols_fit. run_script. reflexivity.
Qed.
End RegressionFacts.

(** ** Which calls write to a live frame *)

Section FramePreservation.
Context `{L : Libraries}.

Lemma keeps_ret {A} (a : A) : keeps_frames (ret a).
Proof. intros w. reflexivity. Qed.

Lemma keeps_raise {A} e : keeps_frames (@raise _ A e).
Proof. intros w. reflexivity. Qed.

Lemma keeps_stop {A} : keeps_frames (@st_stop _ A).
Proof. intros w. reflexivity. Qed.

Lemma keeps_emit e : keeps_frames (emit e).
Proof. intros w. reflexivity. Qed.

Lemma keeps_deref l : keeps_frames (deref l).
Proof. intros w. reflexivity. Qed.

(** A new object takes a reference that no live frame has. *)
Lemma keeps_new_frame d : keeps_frames (new_frame d).
Proof.
  intros w. unfold new_frame. simpl.
  apply insert_subseteq, not_elem_of_dom, is_fresh.
Qed.

Lemma keeps_bind {A B} (m : M A) (k : A -> M B) :
  keeps_frames m -> (forall a, keeps_frames (k a)) -> keeps_frames (bind m k).
Proof.
  intros Hm Hk w. unfold bind.
  specialize (Hm w). destruct (m w) as [[a| |e] w1]; simpl in *; auto.
  etransitivity; [exact Hm|apply Hk].
Qed.

Lemma keeps_try_except {A} (m : M A) catches h :
  keeps_frames m -> (forall e, keeps_frames (h e)) ->
  keeps_frames (try_except m catches h).
Proof.
  intros Hm Hh w. unfold try_except.
  specialize (Hm w). destruct (m w) as [[a| |e] w1]; simpl in *; auto.
  destruct (catches e); simpl; auto.
  etransitivity; [exact Hm|apply Hh].
Qed.

Lemma keeps_for_each {A} (l : list A) body :
  (forall x, keeps_frames (body x)) -> keeps_frames (for_each l body).
Proof.
  intros Hb. induction l as [|x r IH]; simpl.
  - apply keeps_ret.
  - apply keeps_bind; auto.
Qed.
End FramePreservation.


#[local] Hint Resolve keeps_ret keeps_raise keeps_stop keeps_emit keeps_deref
  keeps_new_frame keeps_for_each : keeps.

(** Goes through a function body: one rule per monad operation, a case
    split per [match] / [if] of the source. *)
Ltac keeps :=
  repeat first
    [ solve [ auto with keeps ]
    | progress cbv zeta
    | apply keeps_bind; [|intros]
    | apply keeps_try_except; [|intros]
    | apply keeps_for_each; intros
    | match goal with
      | |- keeps_frames (match ?x with _ => _ end) => destruct x
      | |- keeps_frames (let '(_, _) := ?x in _) => destruct x
      end ].


Section SectionsKeepFrames.
Context `{L : Libraries}.

Lemma keeps_df_getitem df col : keeps_frames (df_getitem df col).
Proof. unfold df_getitem. keeps. Qed.

Lemma keeps__render_variable df col : keeps_frames (_render_variable df col).
Proof. unfold _render_variable, fig_to_streamlit. pose proof keeps_df_getitem. keeps. Qed.

Lemma keeps_univariate_render inp df num_cols :
  keeps_frames (univariate_render inp df num_cols).
Proof. unfold univariate_render. pose proof keeps__render_variable. keeps. Qed.

Lemma keeps__render_pair df x_col y_col : keeps_frames (_render_pair df x_col y_col).
Proof.
  unfold _render_pair, df_getitems, df_dropna, fig_to_streamlit.
  pose proof keeps_df_getitem. keeps.
Qed.

Lemma keeps_bivariate_render inp df num_cols :
  keeps_frames (bivariate_render inp df num_cols).
Proof. unfold bivariate_render. pose proof keeps__render_pair. keeps. Qed.

Lemma keeps_live_of_keeps {A} df d (m : M A) : keeps_frames m -> keeps_live df d m.
Proof. intros Hm w _. apply Hm. Qed.

Lemma keeps_live_bind {A B} df d (m : M A) (k : A -> M B) :
  keeps_live df d m -> (forall a, keeps_live df d (k a)) -> keeps_live df d (bind m k).
Proof.
  intros Hm Hk w Hw. unfold bind.
  specialize (Hm w Hw). destruct (m w) as [[a| |e] w1]; simpl in *; auto.
  etransitivity; [exact Hm|]. apply Hk. eapply lookup_weaken; eassumption.
Qed.

Lemma keeps_live_try_except {A} df d (m : M A) catches h :
  keeps_live df d m -> (forall e, keeps_live df d (h e)) ->
  keeps_live df d (try_except m catches h).
Proof.
  intros Hm Hh w Hw. unfold try_except.
  specialize (Hm w Hw). destruct (m w) as [[a| |e] w1]; simpl in *; auto.
  destruct (catches e); simpl; auto.
  etransitivity; [exact Hm|]. apply Hh. eapply lookup_weaken; eassumption.
Qed.

(** The fit writes to the Dataset what the evaluation of the formula
    leaves in it: nothing changes when that is the frame it held. *)
Lemma keeps_live_smf_ols_fit df d formula :
  formula_effect formula d = d -> keeps_live df d (smf_ols_fit formula df).
Proof.
  intros He w Hw. unfold smf_ols_fit, bind, deref, store, raise, ret.
  cbn [frames stream_pos out]. rewrite Hw. cbn [default from_option id].
  rewrite He, (insert_id _ _ _ Hw).
  destruct (ols_fit formula d); reflexivity.
Qed.

Lemma keeps_live__fit_and_display df d formula :
  formula_effect formula d = d -> keeps_live df d (_fit_and_display df formula).
Proof.
  intros He. unfold _fit_and_display.
  apply keeps_live_bind.
  - apply keeps_live_try_except.
    + apply keeps_live_bind; [apply keeps_live_smf_ols_fit, He|].
      intros model. apply keeps_live_of_keeps. keeps.
    + intros e. apply keeps_live_of_keeps. keeps.
  - intros [model|]; apply keeps_live_of_keeps;
      unfold _show_fit_metrics, _show_coef_table, _show_diagnostics, fig_to_streamlit;
      keeps.
Qed.

Lemma keeps_live_regression_render inp df d num_cols default_y :
  (in_fit_clicked inp = true -> forall formula, formula_effect formula d = d) ->
  keeps_live df d (regression_render inp df num_cols default_y).
Proof.
  intros He. unfold regression_render.
  repeat (apply keeps_live_bind; [apply keeps_live_of_keeps; keeps|intros]).
  destruct (in_fit_clicked inp); simpl.
  - apply keeps_live__fit_and_display, He. reflexivity.
  - apply keeps_live_of_keeps. keeps.
Qed.

End SectionsKeepFrames.

(** ** Ingestion *)

Section IngestionFacts.
Context `{L : Libraries}.

Lemma prefix_cons a s b r :
  String.prefix (String a s) (String b r)
  = if ascii_dec a b then String.prefix s r else false.
Proof. reflexivity. Qed.

Lemma prefix_slx_not_vsc (r : string) :
  String.prefix "slx." r = true -> String.prefix "vsc." r = false.
Proof.
  destruct r as [|c r]; [reflexivity|].
  rewrite !prefix_cons.
  destruct (ascii_dec "s" c) as [<-|]; [|discriminate].
  intros _. destruct (ascii_dec "v" "s"); [discriminate|reflexivity].
Qed.

(** A name that ends in [.xls] does not end in [.csv]. *)
Lemma endswith_xls_not_csv (name : string) :
  endswith name ".xls" = true -> endswith name ".csv" = false.
Proof. unfold endswith. apply prefix_slx_not_vsc. Qed.

(** A name in [.xls] takes the Excel branch, whose engine is openpyxl. *)
Lemma load_data_xls (f : UploadedFile) :
  endswith (lower (file_name f)) ".xls" = true ->
  load_data f = pd_read_excel f Openpyxl.
Proof.
  intros Hxls. unfold load_data.
  rewrite (endswith_xls_not_csv _ Hxls). simpl.
  rewrite Hxls, orb_true_r. reflexivity.
Qed.

(** C4: for a file whose name ends in [.xls], ingestion does take the
    Excel branch and reports no unsupported-file-type error, but the reader
    is called with [engine="openpyxl"]: whenever openpyxl rejects the
    content, as it does for a legacy [.xls] workbook, the exception escapes
    [load_data] and no Dataset is returned. *)
Theorem xls_is_read_with_openpyxl (f : UploadedFile) (w : world) e :
  endswith (lower (file_name f)) ".xls" = true ->
  read_excel Openpyxl (drop (stream_pos w) (file_bytes f)) = inl e ->
  load_data f w =
    (Raise e,
     World (frames w) (stream_pos w) (out w ++ [IoReadExcel Openpyxl (stream_pos w)])).
Proof.
  intros Hxls Hread. rewrite (load_data_xls f Hxls).
  unfold pd_read_excel. rewrite Hread. reflexivity.
Qed.

(** The CSV branch of [load_data], case by case on what the reader does. *)
Lemma load_data_csv (f : UploadedFile) (w : world) :
  endswith (lower (file_name f)) ".csv" = true ->
  let pos := stream_pos w in
  let data := drop pos (file_bytes f) in
  let after1 := World (frames w) (pos + read_csv_tell Utf8 data)
                      (out w ++ [IoReadCsv Utf8 pos]) in
  let after2 := World (frames w) (0 + read_csv_tell Latin1 (file_bytes f))
                      (out w ++ [IoReadCsv Utf8 pos; IoSeek 0; IoReadCsv Latin1 0]) in
  load_data f w =
    match read_csv Utf8 data with
    | inr d => new_frame d after1
    | inl e1 =>
        if is_UnicodeDecodeError e1 then
          match read_csv Latin1 (file_bytes f) with
          | inr d => new_frame d after2
          | inl e2 => (Raise e2, after2)
          end
        else (Raise e1, after1)
    end.
Proof.
  intros Hcsv pos data after1 after2. unfold load_data. rewrite Hcsv.
  unfold try_except, pd_read_csv at 1. fold pos. fold data.
  destruct (read_csv Utf8 data) as [e1|d]; [|reflexivity].
  destruct (is_UnicodeDecodeError e1); [|reflexivity].
  unfold bind, seek, pd_read_csv. simpl. rewrite <- !app_assoc, !drop_0. simpl.
  destruct (read_csv Latin1 (file_bytes f)); reflexivity.
Qed.
End IngestionFacts.

(** ** The whole run *)

Section RunFacts.
Context `{L : Libraries}.

Ltac to_load_data Hin :=
  unfold run, app, upload_render; rewrite Hin;
  change (lookup_name "upload") with (@ret _ unit tt);
  unfold bind, emit, ret, initial_world; cbn [frames stream_pos out app];
  change (World ∅ 0 _) with at_load.

(** An exception that escapes [load_data] escapes the script: the run
    ends there, with the page as [load_data] left it. *)
Lemma run_load_data_raises inp f e w1 :
  in_uploaded inp = Some f ->
  load_data f at_load = (Raise e, w1) ->
  run inp = (Raise e, w1).
Proof. intros Hin Hload. to_load_data Hin. rewrite Hload. reflexivity. Qed.

(** [st.stop()] inside [load_data] stops the script. *)
Lemma run_load_data_stops inp f w1 :
  in_uploaded inp = Some f ->
  load_data f at_load = (Stop, w1) ->
  run inp = (Stop, w1).
Proof. intros Hin Hload. to_load_data Hin. rewrite Hload. reflexivity. Qed.

(** C3 (as the code has it): when the loaded Dataset has no numeric
    column, [upload.render] shows the success line and the preview, then
    the error "No numeric columns found...", and calls [st.stop()]: the run
    is stopped there, and neither the univariate, nor the bivariate, nor
    the regression section is rendered. *)
Theorem no_numeric_column_stops_run inp f df d w1 :
  in_uploaded inp = Some f ->
  load_data f at_load = (Ret df, w1) ->
  frames w1 !! df = Some d ->
  select_number_columns d = [] ->
  exists w',
    run inp = (Stop, w') /\
    out w' =
      out w1 ++
      [ StSuccess ("Loaded **" ++ format_int "," (Z.of_nat (shape0 d))
                   ++ " rows × " ++ format_int EmptyString (Z.of_nat (shape1 d))
                   ++ " columns**");
        StExpander "Preview data (first 10 rows)";
        StDataframe (ShownFrame (head 10 d));
        StError "No numeric columns found. StatApp needs at least one numeric column." ].
Proof.
  intros Hin Hload Hdf Hnum.
  assert (fresh (dom (frames w1)) <> df) as Hne.
  { intros E. apply (is_fresh (dom (frames w1))). rewrite E.
    apply elem_of_dom. eauto. }
  to_load_data Hin. rewrite Hload.
  unfold numeric_cols. run_script.
  rewrite (lookup_insert_ne _ _ _ _ Hne). use_equations.
  eexists. split; [reflexivity|].
  simpl. rewrite <- !app_assoc. reflexivity.
Qed.
End RunFacts.

Section CsvDecoding.
Context `{L : Libraries}.

(** C6: for a file whose name ends in [.csv] (in any letter case),
    [load_data] first reads the stream as UTF-8; if that succeeds there is
    no second read.  If it raises [UnicodeDecodeError], the stream is
    rewound to position 0 and read once more, as Latin-1, on the whole
    content; there is no third read.  If that second read raises too, its
    exception escapes [load_data] and the script: the run ends with that
    error, on a page that holds nothing after the header of the upload
    section. *)
Theorem csv_utf8_then_latin1_once (inp : Inputs) (f : UploadedFile) (w : world) :
  in_uploaded inp = Some f ->
  endswith (lower (file_name f)) ".csv" = true ->
  let pos := stream_pos w in
  let data := drop pos (file_bytes f) in
  (forall d, read_csv Utf8 data = inr d ->
     exists df w',
       load_data f w = (Ret df, w') /\ frames w' !! df = Some d /\
       out w' = out w ++ [IoReadCsv Utf8 pos]) /\
  (forall e1 d,
     read_csv Utf8 data = inl e1 -> is_UnicodeDecodeError e1 = true ->
     read_csv Latin1 (file_bytes f) = inr d ->
     exists df w',
       load_data f w = (Ret df, w') /\ frames w' !! df = Some d /\
       out w' = out w ++ [IoReadCsv Utf8 pos; IoSeek 0; IoReadCsv Latin1 0]) /\
  (forall e1 e2,
     read_csv Utf8 data = inl e1 -> is_UnicodeDecodeError e1 = true ->
     read_csv Latin1 (file_bytes f) = inl e2 ->
     exists w',
       load_data f w = (Raise e2, w') /\
       out w' = out w ++ [IoReadCsv Utf8 pos; IoSeek 0; IoReadCsv Latin1 0]) /\
  (forall e1 e2,
     read_csv Utf8 (file_bytes f) = inl e1 -> is_UnicodeDecodeError e1 = true ->
     read_csv Latin1 (file_bytes f) = inl e2 ->
     exists w',
       run inp = (Raise e2, w') /\
       out w' = page_top ++ [ StHeader "1 · Upload your data";
                              IoReadCsv Utf8 0; IoSeek 0; IoReadCsv Latin1 0 ]).
Proof.
  intros Hin Hcsv pos data.
  pose proof (load_data_csv f w Hcsv) as Hload. cbv zeta in Hload.
  fold pos in Hload. fold data in Hload.
  repeat split.
  - intros d H1. rewrite H1 in Hload. rewrite Hload.
    unfold new_frame. do 2 eexists. repeat split.
    cbn [frames]. apply lookup_insert_eq.
  - intros e1 d H1 Hdec H2. rewrite H1, Hdec, H2 in Hload. rewrite Hload.
    unfold new_frame. do 2 eexists. repeat split.
    cbn [frames]. apply lookup_insert_eq.
  - intros e1 e2 H1 Hdec H2. rewrite H1, Hdec, H2 in Hload. rewrite Hload.
    eexists. split; reflexivity.
  - intros e1 e2 H1 Hdec H2.
    pose proof (load_data_csv f at_load Hcsv) as Hrun. cbv zeta in Hrun.
    change (stream_pos at_load) with 0 in Hrun. rewrite drop_0 in Hrun.
    rewrite H1, Hdec, H2 in Hrun.
    eexists. split; [exact (run_load_data_raises inp f e2 _ Hin Hrun)|].
    unfold at_load. cbn [out]. rewrite <- app_assoc. reflexivity.
Qed.
End CsvDecoding.

(** ** Runs on the sample inputs *)

Section SampleRuns.
Import Sample.

Lemma gaps_frame_wf : frame_wf gaps_frame.
Proof. repeat constructor. Qed.


(** C3, as the claim states it, fails: on [people.csv], whose only column
    is text, the run does not continue with a warning.  It shows an error
    and is stopped inside the upload section; the page holds no warning
    and nothing of sections 2 to 4. *)
Lemma no_numeric_column_is_fatal :
  let r := run (upload "people.csv" people_csv) in
  read_csv Utf8 people_csv = inr people_frame /\
  select_number_columns people_frame = [] /\
  r.1 = Stop /\
  r.1 <> Ret tt /\
  out r.2 =
    [ StPageConfig "StatApp" "wide"; StTitle "📊 StatApp";
      StCaption "Upload data · Explore · Regress"; StDivider;
      StHeader "1 · Upload your data";
      IoReadCsv Utf8 0;
      StSuccess "Loaded **2 rows × 1 columns**";
      StExpander "Preview data (first 10 rows)";
      StDataframe (ShownFrame people_frame);
      StError "No numeric columns found. StatApp needs at least one numeric column." ].
Proof.
  cbv zeta. repeat split; try reflexivity.
  vm_compute. discriminate.
Qed.

Lemma no_numeric_column_stops_run_witness :
  exists w',
    run (upload "people.csv" people_csv) = (Stop, w') /\
    out w' =
      (page_top ++ [StHeader "1 · Upload your data"; IoReadCsv Utf8 0]) ++
      [ StSuccess "Loaded **2 rows × 1 columns**";
        StExpander "Preview data (first 10 rows)";
        StDataframe (ShownFrame (head 10 people_frame));
        StError "No numeric columns found. StatApp needs at least one numeric column." ].
Proof.
  apply (no_numeric_column_stops_run (L := demo) (upload "people.csv" people_csv)
           {| file_name := "people.csv"; file_bytes := people_csv |}
           0 people_frame
           (World {[ 0%nat := people_frame ]} 15
                  (page_top ++ [StHeader "1 · Upload your data"; IoReadCsv Utf8 0])));
    reflexivity.
Defined.

(** A legacy workbook under the name [legacy.xls]. *)
Lemma xls_is_read_with_openpyxl_witness :
  endswith (lower "legacy.xls") ".xls" = true /\
  load_data {| file_name := "legacy.xls"; file_bytes := xls_bytes |} at_load =
    (Raise (Exn BadZipFile "File is not a zip file"),
     World ∅ 0 (out at_load ++ [IoReadExcel Openpyxl 0])).
Proof.
  split; [reflexivity|].
  apply (xls_is_read_with_openpyxl
           {| file_name := "legacy.xls"; file_bytes := xls_bytes |} at_load
           (Exn BadZipFile "File is not a zip file"));
    reflexivity.
Defined.

(** Columns [a] and [b] of the table with gaps share one complete row. *)
Lemma too_few_pairs_warns_only_witness :
  valid_pairs (NumCol [Some 1; None; Some 3; Some 7]%Z)
              (NumCol [None; Some 2; Some 4; None]%Z) = 1 /\
  exists w',
    _render_pair 0 "a" "b" (loaded gaps_frame) = (Ret tt, w') /\
    out w' = [ StWarning "Not enough non-missing data to correlate `a` and `b`." ].
Proof.
  split; [reflexivity|].
  apply (too_few_pairs_warns_only (loaded gaps_frame) 0 gaps_frame "a" "b"
           (NumCol [Some 1; None; Some 3; Some 7]%Z)
           (NumCol [None; Some 2; Some 4; None]%Z));
    [reflexivity | exact gaps_frame_wf | reflexivity | reflexivity | vm_compute; lia].
Defined.

(** A stream that neither decoding accepts, under the name [b.csv]. *)
Lemma csv_utf8_then_latin1_once_witness :
  exists w',
    run (upload "b.csv" broken_csv) = (Raise (Exn ParserError "Error tokenizing data"), w') /\
    out w' = page_top ++ [ StHeader "1 · Upload your data";
                           IoReadCsv Utf8 0; IoSeek 0; IoReadCsv Latin1 0 ].
Proof.
  destruct (csv_utf8_then_latin1_once (L := demo) (upload "b.csv" broken_csv)
              {| file_name := "b.csv"; file_bytes := broken_csv |}
              initial_world eq_refl eq_refl) as (_ & _ & _ & Hboth).
  apply (Hboth (Exn UnicodeDecodeError "'utf-8' codec can't decode byte 0xff")
               (Exn ParserError "Error tokenizing data"));
    reflexivity.
Defined.

(** A Latin-1 file under an upper-case extension: one retry, which
    succeeds. *)
Example latin1_file_is_read_on_retry :
  let r := run (upload "villes.CSV" latin1_csv) in
  r.1 = Raise (Exn NameError "name 'univariate' is not defined") /\
  take 4 (drop 5 (out r.2)) =
    [ IoReadCsv Utf8 0; IoSeek 0; IoReadCsv Latin1 0;
      StSuccess "Loaded **1 rows × 2 columns**" ].
Proof. split; vm_compute; reflexivity. Qed.

(** Column [a] of the table with gaps: 4 rows, 3 of them present. *)
Lemma missing_is_rows_minus_present_witness :
  present [Some 1; None; Some 3; Some 7]%Z = 3 /\
  _render_variable 0 "a" (loaded gaps_frame) =
    (Ret tt,
     World (frames (loaded gaps_frame)) 0
           [ StColumns [1; 2]%nat;
             StDataframe (ShownSummary "{:.4f}"
               [ ("count", 3%Z); ("skewness", 0%Z); ("kurtosis (excess)", 0%Z);
                 ("missing", 1%Z) ]);
             StImage (_histogram_boxplot (NumCol [Some 1; Some 3; Some 7]%Z) "a") ]).
Proof.
  split; [reflexivity|].
  apply (missing_is_rows_minus_present (loaded gaps_frame) 0 gaps_frame "a"
           [Some 1; None; Some 3; Some 7]%Z);
    [reflexivity | exact gaps_frame_wf | reflexivity].
Defined.



(** The three renders on the table with gaps do allocate: two derived
    frames for the one (X, Y) pair rendered. *)
Example sections_allocate_derived_frames :
  size (frames (render_sequence 0 ["a"; "b"; "c"]
                  [ (no_choice, RenderUnivariate);
                    (no_choice, RenderBivariate);
                    (no_choice, RenderRegression (Some "a")) ]
                  (loaded gaps_frame))) = 3.
Proof. vm_compute. reflexivity. Qed.

(** With four complete rows the correlation line and the plot are shown. *)
Example enough_pairs_are_correlated :
  let r := _render_pair 0 "age" "income" (loaded income_frame) in
  r.1 = Ret tt /\
  out r.2 =
    [ StSubheader "`age` vs `income`";
      StMarkdown "**Pearson r = 0** &nbsp;|&nbsp; p-value = 1 &nbsp;|&nbsp; n = 4";
      StImage [ Axes [Regplot income_frame "age" "income"] "age" "income"
                     "income ~ age  (r = 0)" ] ].
Proof. split; vm_compute; reflexivity. Qed.

(** An extension outside the three supported ones: the error, then
    [st.stop()]. *)
Example unsupported_extension_stops :
  let r := run (upload "data.json" people_csv) in
  r.1 = Stop /\
  out r.2 =
    page_top ++
    [ StHeader "1 · Upload your data";
      StError "Unsupported file type. Please upload a .csv or .xlsx file." ].
Proof. split; vm_compute; reflexivity. Qed.

(** An [.xlsx] workbook is read by the same call that fails on [.xls]. *)
Example xlsx_is_read :
  exists df w',
    load_data {| file_name := "book.XLSX"; file_bytes := xlsx_bytes |} at_load
      = (Ret df, w') /\
    frames w' !! df = Some income_frame.
Proof. do 2 eexists. split; vm_compute; reflexivity. Qed.
End SampleRuns.


(** * Further properties of the sections *)

(** ** What [dropna] leaves *)

Section DropnaFacts.
Context {F : Type}.
Implicit Types (c : column F) (d : DataFrame F) (mask keep : list bool).

Lemma within_refl mask : within mask mask.
Proof. induction mask; constructor; auto. Qed.

Lemma within_zip_l keep mask :
  length keep = length mask -> within (zip_with andb mask keep) mask.
Proof.
  revert keep. induction mask as [|b m IH]; intros [|k r] Hlen; simpl in *;
    try discriminate; constructor.
  - intros H. apply andb_true_iff in H. tauto.
  - apply IH. lia.
Qed.

Lemma within_zip_r keep keep' mask :
  length keep' = length keep -> within keep mask -> within (zip_with andb keep' keep) mask.
Proof.
  intros Hlen Hw. revert keep' Hlen.
  induction Hw as [|k b keep mask Hkb Hw IH]; intros [|k' r] Hlen; simpl in *;
    try discriminate; constructor.
  - intros H. apply andb_true_iff in H. tauto.
  - apply IH. lia.
Qed.

Lemma select_is_none_within {A} keep (xs : list (option A)) :
  within keep (map negb (map is_none xs)) ->
  sum_bool (map is_none (select keep xs)) = 0.
Proof.
  revert keep. induction xs as [|x r IH]; intros keep Hw; simpl in *.
  - inversion Hw; subst; reflexivity.
  - inversion Hw as [|k b keep' mask' Hkb Hw']; subst. simpl.
    destruct k; simpl; [|apply IH, Hw'].
    destruct x; simpl; [apply IH, Hw'|].
    specialize (Hkb eq_refl). discriminate Hkb.
Qed.

(** A column cut down to rows on which it is present has no missing cell. *)
Lemma col_select_no_missing keep c :
  within keep (notna c) -> no_missing (col_select keep c).
Proof. destruct c; simpl; apply select_is_none_within. Qed.

Lemma select_all_present {A} (xs : list (option A)) :
  sum_bool (map is_none xs) = 0 -> select (map negb (map is_none xs)) xs = xs.
Proof.
  induction xs as [|[a|] r IH]; simpl; intros H; try discriminate; auto.
  rewrite IH by exact H. reflexivity.
Qed.

(** On a column without missing cells [dropna] changes nothing. *)
Lemma series_dropna_id c : no_missing c -> series_dropna c = c.
Proof.
  unfold no_missing, series_dropna, notna.
  destruct c as [xs|xs]; simpl; intros Hno;
    rewrite select_all_present by exact Hno; reflexivity.
Qed.

(** [s.dropna()] has no missing cell, and dropping again changes nothing. *)
Theorem series_dropna_no_missing c :
  no_missing (series_dropna c) /\
  series_dropna (series_dropna c) = series_dropna c.
Proof.
  assert (no_missing (series_dropna c)) as Hno
    by (apply col_select_no_missing, within_refl).
  split; [exact Hno|]. apply series_dropna_id, Hno.
Qed.

(** [s.dropna()] and [s.isna().sum()], as [_render_variable] takes them
    from the same column: the series has no missing cell, and its length
    and the number of missing cells add up to the length of the column, for
    a column of any dtype. *)
Theorem dropna_series_complete c :
  no_missing (series_dropna c) /\
  series_len (series_dropna c) + sum_bool (isna c) = col_len c.
Proof.
  split; [apply col_select_no_missing, within_refl|apply dropna_isna_total].
Qed.

Lemma complete_rows_length n (cols : list (string * column F)) :
  Forall (fun nc => col_len nc.2 = n) cols -> length (complete_rows n cols) = n.
Proof.
  induction 1 as [|[name c] r Hc Hr IH]; simpl.
  - apply repeat_length.
  - rewrite length_zip_with, notna_length, IH. simpl in Hc. lia.
Qed.

Lemma complete_rows_within n (cols : list (string * column F)) name c :
  Forall (fun nc => col_len nc.2 = n) cols ->
  (name, c) ∈ cols -> within (complete_rows n cols) (notna c).
Proof.
  induction 1 as [|[name' c'] r Hc Hr IH]; intros Hin.
  - inversion Hin.
  - simpl. apply elem_of_cons in Hin as [Heq|Hin].
    + injection Heq as -> ->. apply within_zip_l.
      rewrite notna_length, complete_rows_length by exact Hr. symmetry. exact Hc.
    + apply within_zip_r; [|apply IH, Hin].
      rewrite notna_length, complete_rows_length by exact Hr. exact Hc.
Qed.

(** [df.dropna()] on a row-aligned frame is row-aligned, keeps the column
    labels in order, and none of its columns has a missing cell. *)
Theorem frame_dropna_complete d :
  frame_wf d ->
  frame_wf (frame_dropna d) /\
  column_names (frame_dropna d) = column_names d /\
  forall name c, (name, c) ∈ columns (frame_dropna d) -> no_missing c.
Proof.
  intros Hwf. unfold frame_wf in Hwf.
  pose proof (complete_rows_length _ _ Hwf) as Hlen.
  repeat split.
  - unfold frame_wf, frame_dropna. simpl. apply Forall_forall.
    intros [name c] Hin. apply list_elem_of_fmap in Hin as ([name' c'] & Heq & Hin).
    injection Heq as -> ->. simpl.
    apply col_select_len. rewrite Hlen.
    rewrite Forall_forall in Hwf. symmetry. apply (Hwf (name', c') Hin).
  - unfold column_names, frame_dropna. simpl. rewrite map_map. reflexivity.
  - intros name c Hin. unfold frame_dropna in Hin. simpl in Hin.
    apply list_elem_of_fmap in Hin as ([name' c'] & Heq & Hin).
    injection Heq as -> ->. simpl.
    apply col_select_no_missing. eapply complete_rows_within; eauto.
Qed.

(** A frame without missing cells is what [dropna] returns for it. *)
Lemma select_all_true {A} n (l : list A) :
  length l = n -> select (repeat true n) l = l.
Proof.
  revert n. induction l as [|x r IH]; intros [|n] Hlen; simpl in *;
    try discriminate; auto.
  rewrite IH by lia. reflexivity.
Qed.
End DropnaFacts.

(** ** The numeric columns *)

Section NumericColumnFacts.
Context {F : Type}.
Implicit Types (c : column F) (d : DataFrame F).

Lemma getitem_cols_None (cols : list (string * column F)) name :
  name ∉ map fst cols -> getitem_cols cols name = None.
Proof.
  induction cols as [|[n c] r IH]; simpl; intros Hnot; [reflexivity|].
  destruct (String.eqb_spec n name) as [->|Hne].
  - exfalso. apply Hnot. apply list_elem_of_here.
  - apply IH. intros Hin. apply Hnot. apply list_elem_of_further, Hin.
Qed.

(** With unique labels, [df[name]] is the column that carries the label. *)
Lemma getitem_cols_unique (cols : list (string * column F)) name c :
  NoDup (map fst cols) -> (name, c) ∈ cols -> getitem_cols cols name = Some c.
Proof.
  induction cols as [|[n c'] r IH]; simpl; intros Hnd Hin.
  - inversion Hin.
  - apply NoDup_cons in Hnd as [Hn Hnd].
    apply elem_of_cons in Hin as [Heq|Hin].
    + injection Heq as -> ->. rewrite String.eqb_refl. reflexivity.
    + destruct (String.eqb_spec n name) as [->|Hne]; [|apply IH; assumption].
      exfalso. apply Hn. apply list_elem_of_fmap. exists (name, c). split; auto.
Qed.

(** [numeric_cols] lists labels of the frame, in the frame's order, and
    never more than once a label the frame has once. *)
Theorem numeric_cols_sublist d :
  select_number_columns d `sublist_of` column_names d.
Proof.
  unfold select_number_columns, column_names.
  apply (fmap_sublist fst), sublist_filter.
Qed.

(** In a frame with unique labels, the labels [numeric_cols] returns are
    exactly those under which [df[name]] is a numeric Series. *)
Theorem numeric_cols_spec d name :
  NoDup (column_names d) ->
  name ∈ select_number_columns d <-> exists xs, getitem d name = Some (NumCol xs).
Proof.
  intros Hnd. unfold select_number_columns, getitem. split.
  - intros Hin. apply list_elem_of_fmap in Hin as ([n c] & -> & Hin).
    apply list_elem_of_filter in Hin as [Hnum Hin]. simpl in *.
    destruct c as [xs|xs]; [|contradiction].
    exists xs. apply getitem_cols_unique; assumption.
  - intros [xs Hget]. apply getitem_cols_elem in Hget.
    apply list_elem_of_fmap. exists (name, NumCol xs). split; [reflexivity|].
    apply list_elem_of_filter. split; [exact I|exact Hget].
Qed.

(** Every label [numeric_cols] returns can be looked up: [df[name]] does
    not raise [KeyError]. *)
Lemma numeric_cols_getitem d name :
  name ∈ select_number_columns d -> is_Some (getitem d name).
Proof.
  intros Hin.
  assert (select_number_columns d `sublist_of` column_names d) as Hsub
    by (apply (fmap_sublist fst), sublist_filter).
  pose proof (elem_of_sublist _ _ _ Hin Hsub) as Hcol.
  unfold getitem, column_names in *.
  destruct (getitem_cols (columns d) name) eqn:Hget; [eauto|].
  exfalso. revert Hcol Hget. generalize (columns d) as cols.
  induction cols as [|[n c] r IH]; simpl; intros Hcol Hget.
  - inversion Hcol.
  - destruct (String.eqb_spec n name) as [->|Hne]; [discriminate|].
    apply elem_of_cons in Hcol as [Heq|Hcol]; [congruence|]. apply IH; assumption.
Qed.
End NumericColumnFacts.

(** ** More on ingestion *)

Section StringFacts.

Lemma append_cons c (a b : string) : (String c a ++ b)%string = String c (a ++ b)%string.
Proof. reflexivity. Qed.

Lemma append_nil_l (b : string) : (EmptyString ++ b)%string = b.
Proof. reflexivity. Qed.

Lemma append_nil_r (a : string) : (a ++ EmptyString)%string = a.
Proof. induction a as [|c r IH]; [reflexivity|]. rewrite append_cons, IH. reflexivity. Qed.

Lemma append_assoc (a b c : string) : (a ++ (b ++ c))%string = ((a ++ b) ++ c)%string.
Proof. induction a as [|x r IH]; [reflexivity|]. rewrite !append_cons, IH. reflexivity. Qed.

Lemma string_rev_onto_app (s acc : string) :
  string_rev_onto s acc = (string_rev_onto s EmptyString ++ acc)%string.
Proof.
  revert acc. induction s as [|c r IH]; intros acc; [reflexivity|].
  change (string_rev_onto (String c r) acc) with (string_rev_onto r (String c acc)).
  change (string_rev_onto (String c r) EmptyString)
    with (string_rev_onto r (String c EmptyString)).
  rewrite IH, (IH (String c EmptyString)), <- append_assoc. reflexivity.
Qed.

Lemma string_rev_app (a b : string) :
  string_rev (a ++ b)%string = (string_rev b ++ string_rev a)%string.
Proof.
  unfold string_rev. induction a as [|c r IH].
  - rewrite append_nil_l. symmetry. apply append_nil_r.
  - rewrite append_cons.
    change (string_rev_onto (String c (r ++ b)%string) EmptyString)
      with (string_rev_onto (r ++ b)%string (String c EmptyString)).
    change (string_rev_onto (String c r) EmptyString)
      with (string_rev_onto r (String c EmptyString)).
    rewrite string_rev_onto_app, IH, (string_rev_onto_app r (String c EmptyString)).
    rewrite append_assoc. reflexivity.
Qed.

Lemma prefix_app (p q : string) : String.prefix p (p ++ q)%string = true.
Proof.
  induction p as [|c r IH]; [destruct q; reflexivity|].
  rewrite append_cons, prefix_cons.
  destruct (ascii_dec c c); [exact IH|contradiction].
Qed.

(** [(stem + suffix).endswith(suffix)] *)
Lemma endswith_app (stem suffix : string) :
  endswith (stem ++ suffix)%string suffix = true.
Proof. unfold endswith. rewrite string_rev_app. apply prefix_app. Qed.

Lemma lower_app (a b : string) :
  lower (a ++ b)%string = (lower a ++ lower b)%string.
Proof.
  induction a as [|c r IH]; [reflexivity|].
  rewrite append_cons. simpl. rewrite IH. reflexivity.
Qed.

Lemma prefix_xslx_not_vsc (r : string) :
  String.prefix "xslx." r = true -> String.prefix "vsc." r = false.
Proof.
  destruct r as [|c r]; [reflexivity|].
  rewrite !prefix_cons.
  destruct (ascii_dec "x" c) as [<-|]; [|discriminate].
  intros _. destruct (ascii_dec "v" "x"); [discriminate|reflexivity].
Qed.

Lemma endswith_xlsx_not_csv (name : string) :
  endswith name ".xlsx" = true -> endswith name ".csv" = false.
Proof. unfold endswith. apply prefix_xslx_not_vsc. Qed.
End StringFacts.

Section IngestionMore.
Context `{L : Libraries}.

(** The extension is matched whatever its letter case: a name made of any
    stem and any spelling of [.csv] takes the CSV branch, which begins with
    a UTF-8 read at the current position of the stream. *)
Theorem csv_extension_any_case (stem ext : string) (data : list byte) (w : world) d :
  lower ext = ".csv" ->
  read_csv Utf8 (drop (stream_pos w) data) = inr d ->
  exists df w',
    load_data {| file_name := stem ++ ext; file_bytes := data |} w = (Ret df, w') /\
    frames w' !! df = Some d /\
    out w' = out w ++ [IoReadCsv Utf8 (stream_pos w)].
Proof.
  intros Hext Hread.
  set (f := {| file_name := (stem ++ ext)%string; file_bytes := data |}).
  assert (endswith (lower (file_name f)) ".csv" = true) as Hcsv.
  { simpl. rewrite lower_app, Hext. apply endswith_app. }
  pose proof (load_data_csv f w Hcsv) as Hload. cbv zeta in Hload.
  simpl file_bytes in Hload. rewrite Hread in Hload. rewrite Hload.
  unfold new_frame. do 2 eexists. repeat split.
  cbn [frames]. apply lookup_insert_eq.
Qed.

(** Only [UnicodeDecodeError] triggers the fallback: any other exception
    of the first read escapes [load_data] at once, after that single read
    (no seek, no Latin-1 attempt). *)
Theorem csv_other_error_is_not_retried (f : UploadedFile) (w : world) e1 :
  endswith (lower (file_name f)) ".csv" = true ->
  read_csv Utf8 (drop (stream_pos w) (file_bytes f)) = inl e1 ->
  is_UnicodeDecodeError e1 = false ->
  exists w',
    load_data f w = (Raise e1, w') /\
    frames w' = frames w /\
    out w' = out w ++ [IoReadCsv Utf8 (stream_pos w)].
Proof.
  intros Hcsv Hread Hdec.
  pose proof (load_data_csv f w Hcsv) as Hload. cbv zeta in Hload.
  rewrite Hread, Hdec in Hload. rewrite Hload.
  eexists. repeat split.
Qed.

Lemma load_data_xlsx (f : UploadedFile) :
  endswith (lower (file_name f)) ".xlsx" = true ->
  load_data f = pd_read_excel f Openpyxl.
Proof.
  intros Hx. unfold load_data.
  rewrite (endswith_xlsx_not_csv _ Hx). simpl.
  rewrite Hx. reflexivity.
Qed.

(** A name that ends in none of the three extensions is refused: the
    page gets the unsupported-file-type error, the run is stopped, and the
    content of the file is never read. *)
Theorem unsupported_extension_is_refused (inp : Inputs) (f : UploadedFile) :
  in_uploaded inp = Some f ->
  endswith (lower (file_name f)) ".csv" = false ->
  endswith (lower (file_name f)) ".xlsx" = false ->
  endswith (lower (file_name f)) ".xls" = false ->
  run inp =
    (Stop,
     World ∅ 0
           (page_top ++
            [ StHeader "1 · Upload your data";
              StError "Unsupported file type. Please upload a .csv or .xlsx file." ])).
Proof.
  intros Hin Hcsv Hxlsx Hxls.
  apply (run_load_data_stops inp f _ Hin).
  unfold load_data. rewrite Hcsv. simpl. rewrite Hxlsx, Hxls. simpl.
  unfold bind, emit, st_stop, at_load. simpl. reflexivity.
Qed.

(** Whatever the branch, a reference returned by [load_data] is new (no
    frame alive before had it) and holds the frame just read; the frames
    alive before are untouched. *)
Theorem load_data_returns_new_frame (f : UploadedFile) (w w' : world) df :
  load_data f w = (Ret df, w') ->
  (df ∉ dom (frames w)) /\
  exists d, frames w' = <[df := d]> (frames w) /\
            (read_csv Utf8 (drop (stream_pos w) (file_bytes f)) = inr d \/
             read_csv Latin1 (file_bytes f) = inr d \/
             read_excel Openpyxl (drop (stream_pos w) (file_bytes f)) = inr d).
Proof.
  unfold load_data.
  destruct (endswith (lower (file_name f)) ".csv") eqn:Hcsv.
  - pose proof (load_data_csv f w Hcsv) as Hload. cbv zeta in Hload.
    unfold load_data in Hload. rewrite Hcsv in Hload. rewrite Hload. clear Hload.
    destruct (read_csv Utf8 _) as [e1|d] eqn:H1.
    + destruct (is_UnicodeDecodeError e1); [|discriminate].
      destruct (read_csv Latin1 _) as [e2|d] eqn:H2; [discriminate|].
      unfold new_frame. cbn [frames]. intros [= <- <-]. cbn [frames].
      split; [apply is_fresh|]. exists d. split; [reflexivity|]. tauto.
    + unfold new_frame. cbn [frames]. intros [= <- <-]. cbn [frames].
      split; [apply is_fresh|]. exists d. split; [reflexivity|]. tauto.
  - destruct (existsb _ _).
    + unfold pd_read_excel.
      destruct (read_excel Openpyxl _) as [e|d] eqn:H1; [discriminate|].
      unfold new_frame. cbn [frames]. intros [= <- <-]. cbn [frames].
      split; [apply is_fresh|]. exists d. split; [reflexivity|]. tauto.
    + unfold bind, emit, st_stop. discriminate.
Qed.
End IngestionMore.

(** ** Widgets and sequencing *)

Section WidgetFacts.

Lemma take_options (n : nat) (options : list string) x :
  x ∈ take n options -> x ∈ options.
Proof. intros Hin. eapply elem_of_sublist; [exact Hin|apply sublist_take]. Qed.

End WidgetFacts.

Section BindFacts.
Context `{L : Libraries}.

Lemma bind_emit {B} e (k : unit -> M B) (w : world) :
  bind (emit e) k w = k tt (World (frames w) (stream_pos w) (out w ++ [e])).
Proof. reflexivity. Qed.

Lemma bind_returns {A B} (m : M A) (k : A -> M B) (w w1 : world) a :
  m w = (Ret a, w1) -> bind m k w = k a w1.
Proof. intros H. unfold bind. rewrite H. reflexivity. Qed.

End BindFacts.


Section BivariateEdge.
Context `{L : Libraries}.

(** With fewer than two numeric columns the bivariate section shows its
    header, its help text and the warning, renders no pair, creates no
    frame and returns [None]. *)
Theorem bivariate_needs_two_columns (inp : Inputs) df num_cols (w : world) :
  length num_cols < 2 ->
  exists help,
    bivariate_render inp df num_cols w =
      (Ret None,
       World (frames w) (stream_pos w)
             (out w ++ [ StHeader "3 · Bivariate EDA";
                         StMarkdown help;
                         StWarning "Need at least 2 numeric columns for bivariate analysis." ])).
Proof.
  intros Hlen. unfold bivariate_render. rewrite !bind_emit.
  destruct num_cols as [|first [|second rest]]; [| |simpl in Hlen; lia];
    rewrite bind_emit; unfold ret; cbn [frames stream_pos out];
    rewrite <- !app_assoc; eexists; reflexivity.
Qed.
End BivariateEdge.

(** ** More on the regression section *)

Section RegressionMore.
Context `{L : Libraries}.

(** The regression section before the button is pressed. *)
Lemma regression_render_unclicked (inp : Inputs) df d num_cols default_y (w : world) :
  frames w !! df = Some d ->
  in_fit_clicked inp = false ->
  exists help,
    regression_render inp df num_cols default_y w =
      (Ret tt,
       World (frames w) (stream_pos w)
             (out w ++ [ StHeader "4 · OLS Regression";
                         StMarkdown help;
                         StExpander "Available columns";
                         StWrite (column_names d) ])).
Proof.
  intros Hw Hclick. unfold regression_render. rewrite !bind_emit.
  unfold bind at 1. unfold deref at 1. cbn [frames stream_pos out].
  rewrite Hw. cbn [default from_option id]. rewrite bind_emit.
  rewrite Hclick. unfold ret. cbn [negb frames stream_pos out].
  rewrite <- !app_assoc. eexists. reflexivity.
Qed.

(** Until the user clicks the fit button, the regression section shows
    its header, its help text and the list of all column labels of the
    frame, and nothing else: no model is fitted, whatever the formula
    field holds. *)
Theorem no_fit_without_click (inp : Inputs) df d num_cols default_y (w : world) :
  frames w !! df = Some d ->
  in_fit_clicked inp = false ->
  exists help,
    regression_render inp df num_cols default_y w =
      (Ret tt,
       World (frames w) (stream_pos w)
             (out w ++ [ StHeader "4 · OLS Regression";
                         StMarkdown help;
                         StExpander "Available columns";
                         StWrite (column_names d) ])).
Proof. exact (regression_render_unclicked inp df d num_cols default_y w). Qed.


End RegressionMore.

(** ** More on the whole run *)

Section RunMore.
Context `{L : Libraries}.

(** Before any file is uploaded a run shows the upload header and the
    invitation to upload, and stops: no section is rendered. *)
Theorem no_file_stops_run (inp : Inputs) :
  in_uploaded inp = None ->
  run inp =
    (Stop,
     World ∅ 0
           (page_top ++ [ StHeader "1 · Upload your data";
                          StInfo "Upload a file above to get started." ])).
Proof.
  intros Hin. unfold run, app, upload_render. rewrite Hin.
  reflexivity.
Qed.

(** What [upload.render] does once [load_data] has returned. *)
Lemma upload_render_run (inp : Inputs) f (w w1 : world) df d :
  in_uploaded inp = Some f ->
  load_data f (World (frames w) (stream_pos w)
                     (out w ++ [StHeader "1 · Upload your data"])) = (Ret df, w1) ->
  frames w1 !! df = Some d ->
  select_number_columns d <> [] ->
  exists w2,
    upload_render inp w = (Ret (Some (df, select_number_columns d)), w2) /\
    frames w2 !! df = Some d /\
    (forall c, c ∈ select_number_columns d -> is_Some (getitem d c)) /\
    out w2 =
      out w1 ++
      [ StSuccess ("Loaded **" ++ format_int "," (Z.of_nat (shape0 d))
                   ++ " rows × " ++ format_int EmptyString (Z.of_nat (shape1 d))
                   ++ " columns**");
        StExpander "Preview data (first 10 rows)";
        StDataframe (ShownFrame (head 10 d)) ].
Proof.
  intros Hin Hload Hdf Hnum.
  assert (fresh (dom (frames w1)) <> df) as Hne.
  { intros E. apply (is_fresh (dom (frames w1))). rewrite E.
    apply elem_of_dom. eauto. }
  assert ((length (select_number_columns d) =? 0)%nat = false) as Hlen.
  { apply Nat.eqb_neq. destruct (select_number_columns d); [congruence|simpl; lia]. }
  unfold upload_render. rewrite Hin, bind_emit.
  erewrite bind_returns; [|exact Hload].
  unfold numeric_cols, bind, deref, emit, new_frame, ret.
  cbn [frames stream_pos out]. rewrite Hdf. cbn [default from_option id].
  rewrite lookup_insert_eq, (lookup_insert_ne _ _ _ _ Hne), Hdf.
  cbn [default from_option id]. rewrite Hlen.
  eexists. split; [reflexivity|]. cbn [frames out].
  split; [rewrite (lookup_insert_ne _ _ _ _ Hne); exact Hdf|].
  split; [intros c; apply numeric_cols_getitem|].
  rewrite <- !app_assoc. reflexivity.
Qed.

(** When [load_data] returns a frame with at least one numeric column,
    [upload.render] shows the success line and the preview of the first ten
    rows, and returns the frame together with its numeric labels: a
    non-empty list, each label of which can be looked up in the frame. *)
Theorem upload_render_returns (inp : Inputs) f (w w1 : world) df d :
  in_uploaded inp = Some f ->
  load_data f (World (frames w) (stream_pos w)
                     (out w ++ [StHeader "1 · Upload your data"])) = (Ret df, w1) ->
  frames w1 !! df = Some d ->
  select_number_columns d <> [] ->
  exists w2,
    upload_render inp w = (Ret (Some (df, select_number_columns d)), w2) /\
    frames w2 !! df = Some d /\
    (forall c, c ∈ select_number_columns d -> is_Some (getitem d c)) /\
    out w2 =
      out w1 ++
      [ StSuccess ("Loaded **" ++ format_int "," (Z.of_nat (shape0 d))
                   ++ " rows × " ++ format_int EmptyString (Z.of_nat (shape1 d))
                   ++ " columns**");
        StExpander "Preview data (first 10 rows)";
        StDataframe (ShownFrame (head 10 d)) ].
Proof. exact (upload_render_run inp f w w1 df d). Qed.

(** No run gets past the upload section: [app.py] binds the univariate
    module under the name [univariateßß], so once a file has loaded into a
    frame with at least one numeric column, evaluating [univariate.render]
    raises [NameError].  The page then holds what [upload.render] showed
    and the divider that follows it; no section after the upload is
    rendered, whatever the widgets hold. *)
Theorem run_raises_name_error (inp : Inputs) f (w1 : world) df d :
  in_uploaded inp = Some f ->
  load_data f at_load = (Ret df, w1) ->
  frames w1 !! df = Some d ->
  select_number_columns d <> [] ->
  exists w',
    run inp = (Raise (Exn NameError "name 'univariate' is not defined"), w') /\
    frames w' !! df = Some d /\
    out w' =
      out w1 ++
      [ StSuccess ("Loaded **" ++ format_int "," (Z.of_nat (shape0 d))
                   ++ " rows × " ++ format_int EmptyString (Z.of_nat (shape1 d))
                   ++ " columns**");
        StExpander "Preview data (first 10 rows)";
        StDataframe (ShownFrame (head 10 d));
        StDivider ].
Proof.
  intros Hin Hload Hdf Hnum.
  destruct (upload_render_run inp f (World ∅ 0 page_top) w1 df d Hin Hload Hdf Hnum)
    as (w2 & Hup & Hdf2 & _ & Hout).
  unfold run, app. rewrite !bind_emit.
  change (lookup_name "upload") with (@ret _ unit tt).
  change (lookup_name "univariate")
    with (@raise _ unit (Exn NameError "name 'univariate' is not defined")).
  unfold bind at 1. unfold ret at 1.
  erewrite bind_returns; [|exact Hup]. cbv beta iota. rewrite bind_emit.
  unfold bind, raise. eexists. split; [reflexivity|]. cbn [frames out].
  split; [exact Hdf2|]. rewrite Hout, <- app_assoc. reflexivity.
Qed.
End RunMore.

(** ** Remaining facts on the four sections *)

Section SectionsMore.
Context `{L : Libraries}.

(** An [.xlsx] name takes the Excel branch: one call of the reader with
    the openpyxl engine, whose frame is returned at a new reference. *)
Theorem xlsx_is_read_with_openpyxl (f : UploadedFile) (w : world) d :
  endswith (lower (file_name f)) ".xlsx" = true ->
  read_excel Openpyxl (drop (stream_pos w) (file_bytes f)) = inr d ->
  exists df w',
    load_data f w = (Ret df, w') /\
    frames w' !! df = Some d /\
    out w' = out w ++ [IoReadExcel Openpyxl (stream_pos w)].
Proof.
  intros Hx Hread. rewrite (load_data_xlsx f Hx).
  unfold pd_read_excel. rewrite Hread. unfold new_frame.
  do 2 eexists. repeat split. cbn [frames]. apply lookup_insert_eq.
Qed.

(** The formula the regression section pre-fills and, when the field is
    left untouched and the button pressed, fits: its response is the Y
    handed over by the bivariate section, or else the first numeric label,
    or else [y]; its predictors are at most three of the numeric labels, in
    their order, never the response itself; with no predictor left the
    formula is the bare response, without [~]. *)
Theorem default_formula_shape (inp : Inputs) df d num_cols default_y (w : world) :
  frames w !! df = Some d ->
  in_formula inp = None ->
  in_fit_clicked inp = true ->
  exists y xs w1,
    regression_render inp df num_cols default_y w =
      _fit_and_display df
        (match xs with
         | [] => y
         | _ => (y ++ " ~ " ++ join " + " xs)%string
         end) w1 /\
    frames w1 = frames w /\
    y = match default_y with
        | Some y0 => if String.eqb y0 EmptyString then List.hd "y" num_cols else y0
        | None => List.hd "y" num_cols
        end /\
    (xs `sublist_of` num_cols) /\ (y ∉ xs) /\ length xs <= 3.
Proof.
  intros Hw Hform Hclick. unfold regression_render. rewrite !bind_emit.
  unfold bind at 1. unfold deref at 1. cbn [frames stream_pos out].
  rewrite Hw. cbn [default from_option id]. rewrite bind_emit.
  rewrite Hclick, Hform. cbn [negb text_input default from_option id].
  set (y := match default_y with
            | Some y0 => if String.eqb y0 EmptyString then List.hd "y" num_cols else y0
            | None => List.hd "y" num_cols
            end).
  set (xs := take 3 (filter (fun c => negb (String.eqb c y)) num_cols)).
  exists y, xs. eexists. split; [reflexivity|]. cbn [frames].
  split; [reflexivity|]. split; [reflexivity|].
  split; [|split].
  - unfold xs. etransitivity; [apply sublist_take|apply sublist_filter].
  - intros Hin. apply take_options in Hin.
    apply list_elem_of_filter in Hin as [Hne _].
    rewrite String.eqb_refl in Hne. exact Hne.
  - unfold xs. rewrite length_take. lia.
Qed.

End SectionsMore.

(** ** More runs on the sample inputs *)

Section MoreSampleRuns.
Import Sample.

Lemma gaps_frame_labels : NoDup (column_names gaps_frame).
Proof. apply (bool_decide_unpack _). vm_compute. exact I. Qed.

Lemma frame_dropna_complete_witness :
  frame_wf (frame_dropna gaps_frame) /\
  column_names (frame_dropna gaps_frame) = column_names gaps_frame /\
  forall name c, (name, c) ∈ columns (frame_dropna gaps_frame) -> no_missing c.
Proof. apply (frame_dropna_complete gaps_frame gaps_frame_wf). Defined.

Lemma numeric_cols_spec_witness :
  "b" ∈ select_number_columns gaps_frame <->
  exists xs, getitem gaps_frame "b" = Some (NumCol xs).
Proof. apply (numeric_cols_spec gaps_frame "b" gaps_frame_labels). Defined.

Lemma csv_extension_any_case_witness :
  exists df w',
    load_data {| file_name := "people.CsV"; file_bytes := people_csv |} at_load
      = (Ret df, w') /\
    frames w' !! df = Some people_frame /\
    out w' = out at_load ++ [IoReadCsv Utf8 0].
Proof.
  apply (csv_extension_any_case (L := demo) "people" ".CsV" people_csv at_load people_frame);
    reflexivity.
Defined.

Lemma csv_other_error_is_not_retried_witness :
  exists w',
    load_data {| file_name := "empty.csv"; file_bytes := [] |} at_load
      = (Raise (Exn EmptyDataError "No columns to parse from file"), w') /\
    frames w' = frames at_load /\
    out w' = out at_load ++ [IoReadCsv Utf8 0].
Proof.
  apply (csv_other_error_is_not_retried (L := demo)
           {| file_name := "empty.csv"; file_bytes := [] |} at_load
           (Exn EmptyDataError "No columns to parse from file"));
    reflexivity.
Defined.

Lemma unsupported_extension_is_refused_witness :
  run (upload "data.json" people_csv) =
    (Stop,
     World ∅ 0
           (page_top ++
            [ StHeader "1 · Upload your data";
              StError "Unsupported file type. Please upload a .csv or .xlsx file." ])).
Proof.
  apply (unsupported_extension_is_refused (L := demo) (upload "data.json" people_csv)
           {| file_name := "data.json"; file_bytes := people_csv |});
    reflexivity.
Defined.

Lemma load_data_returns_new_frame_witness :
  (0 ∉ dom (frames at_load)) /\
  exists d, {[ 0 := people_frame ]} = <[0 := d]> (frames at_load) /\
            (read_csv Utf8 (drop 0 people_csv) = inr d \/
             read_csv Latin1 people_csv = inr d \/
             read_excel Openpyxl (drop 0 people_csv) = inr d).
Proof.
  exact (load_data_returns_new_frame (L := demo)
           {| file_name := "people.csv"; file_bytes := people_csv |} at_load
           (World {[ 0 := people_frame ]} 15 (out at_load ++ [IoReadCsv Utf8 0])) 0
           eq_refl).
Defined.

Lemma bivariate_needs_two_columns_witness :
  exists help,
    bivariate_render no_choice 0 ["pop"] (loaded latin1_frame) =
      (Ret None,
       World (frames (loaded latin1_frame)) 0
             [ StHeader "3 · Bivariate EDA";
               StMarkdown help;
               StWarning "Need at least 2 numeric columns for bivariate analysis." ]).
Proof.
  apply (bivariate_needs_two_columns (L := demo) no_choice 0 ["pop"] (loaded latin1_frame)).
  simpl. lia.
Defined.

Lemma no_fit_without_click_witness :
  exists help,
    regression_render fit_not_clicked 0 ["a"; "b"; "c"] (Some "b") (loaded gaps_frame) =
      (Ret tt,
       World (frames (loaded gaps_frame)) 0
             [ StHeader "4 · OLS Regression";
               StMarkdown help;
               StExpander "Available columns";
               StWrite ["a"; "b"; "c"] ]).
Proof.
  apply (no_fit_without_click (L := demo) fit_not_clicked 0 gaps_frame ["a"; "b"; "c"]
           (Some "b") (loaded gaps_frame));
    reflexivity.
Defined.



Lemma no_file_stops_run_witness :
  run fit_not_clicked =
    (Stop,
     World ∅ 0
           (page_top ++ [ StHeader "1 · Upload your data";
                          StInfo "Upload a file above to get started." ])).
Proof. apply (no_file_stops_run (L := demo) fit_not_clicked). reflexivity. Defined.

Lemma upload_render_returns_witness :
  exists w2,
    upload_render (upload "income.csv" income_csv) (World ∅ 0 page_top)
      = (Ret (Some (0, ["age"; "income"])), w2) /\
    frames w2 !! 0 = Some income_frame /\
    (forall c, c ∈ ["age"; "income"] -> is_Some (getitem income_frame c)) /\
    out w2 =
      (out at_load ++ [IoReadCsv Utf8 0]) ++
      [ StSuccess "Loaded **4 rows × 2 columns**";
        StExpander "Preview data (first 10 rows)";
        StDataframe (ShownFrame (head 10 income_frame)) ].
Proof.
  apply (upload_render_returns (L := demo) (upload "income.csv" income_csv)
           {| file_name := "income.csv"; file_bytes := income_csv |}
           (World ∅ 0 page_top)
           (World {[ 0 := income_frame ]} 47 (out at_load ++ [IoReadCsv Utf8 0]))
           0 income_frame);
    [reflexivity | reflexivity | reflexivity | discriminate].
Defined.

Lemma run_raises_name_error_witness :
  exists w',
    run (upload "income.csv" income_csv)
      = (Raise (Exn NameError "name 'univariate' is not defined"), w') /\
    frames w' !! 0 = Some income_frame /\
    out w' =
      (out at_load ++ [IoReadCsv Utf8 0]) ++
      [ StSuccess "Loaded **4 rows × 2 columns**";
        StExpander "Preview data (first 10 rows)";
        StDataframe (ShownFrame (head 10 income_frame));
        StDivider ].
Proof.
  apply (run_raises_name_error (L := demo) (upload "income.csv" income_csv)
           {| file_name := "income.csv"; file_bytes := income_csv |}
           (World {[ 0 := income_frame ]} 47 (out at_load ++ [IoReadCsv Utf8 0]))
           0 income_frame);
    [reflexivity | reflexivity | reflexivity | discriminate].
Defined.

Lemma xlsx_is_read_with_openpyxl_witness :
  exists df w',
    load_data {| file_name := "book.xlsx"; file_bytes := xlsx_bytes |} at_load
      = (Ret df, w') /\
    frames w' !! df = Some income_frame /\
    out w' = out at_load ++ [IoReadExcel Openpyxl 0].
Proof.
  apply (xlsx_is_read_with_openpyxl (L := demo)
           {| file_name := "book.xlsx"; file_bytes := xlsx_bytes |} at_load income_frame);
    reflexivity.
Defined.

Lemma default_formula_shape_witness :
  exists y xs w1,
    regression_render no_choice 0 ["a"; "b"; "c"] (Some "b") (loaded gaps_frame) =
      _fit_and_display 0
        (match xs with
         | [] => y
         | _ => (y ++ " ~ " ++ join " + " xs)%string
         end) w1 /\
    frames w1 = frames (loaded gaps_frame) /\
    y = "b" /\
    (xs `sublist_of` ["a"; "b"; "c"]) /\ (y ∉ xs) /\ length xs <= 3.
Proof.
  apply (default_formula_shape (L := demo) no_choice 0 gaps_frame ["a"; "b"; "c"]
           (Some "b") (loaded gaps_frame));
    reflexivity.
Defined.

(** The pre-filled formula on the table with gaps, Y handed over as [b]. *)
Example default_formula_on_gaps :
  out (regression_render no_choice 0 ["a"; "b"; "c"] (Some "b") (loaded gaps_frame)).2
  = [ StHeader "4 · OLS Regression";
      StMarkdown ("Type your model formula using **Patsy notation** (same as R). Examples:" ++ newline
                  ++ "- `salary ~ age + experience`" ++ newline
                  ++ "- `price ~ np.log(area) + bedrooms + C(city)` — `C()` makes a variable categorical" ++ newline
                  ++ "- `y ~ x1 + x2 + x1:x2` — `:` is an interaction term" ++ newline
                  ++ "- `Q('col name') ~ x` — wrap column names that contain spaces in `Q()`");
      StExpander "Available columns";
      StWrite ["a"; "b"; "c"];
      StError "**Model failed:** Error evaluating factor: b ~ a + c";
      StInfo ("Common causes: typo in column name, column name with spaces "
              ++ "(use Q('col name')), or a column that is all-missing.") ].
Proof. vm_compute. reflexivity. Qed.
End MoreSampleRuns.
